(** * QuizPro: the quiz session of [script.js], embedded and verified

    The development follows [script.js] class by class.  [QuizState] is the
    mutable state object, [Utils], [UIComponents] and [QuizApp] are embedded
    method by method over an explicit world [App] made of the state object,
    the part of the page the methods read back, and the browser services
    they call (interval and timeout tables, [localStorage], [Date.now],
    [Math.random]).

    Conventions.
    - A JavaScript number that the program keeps integral is a [jsnum]:
      an integer, [NaN] (what [parseInt] gives for a non-numeric field) or
      an infinity.  Integers are exact in a double below 2^53, and the
      model keeps them in [Z].
    - The two places where the program divides ([getAverageTime], and the
      percentage of [showResults] and [getPerformanceMessage]) are computed
      in binary64 with the kernel's primitive floats, as the engine does.
    - A method that can raise ([TypeError] on an undefined question, the
      [throw] of [startQuiz]) runs in the monad [M]: the world it has built
      so far survives the exception, as mutations do in JavaScript.
    - Toasts, CSS classes, focus, ARIA attributes and the progress bar are
      write-only presentation and are left out; the elements the methods
      look up by id are taken to exist. *)

From Stdlib Require Import ZArith QArith Qround Lqa Uint63 PrimFloat FloatOps SpecFloat.
From stdpp Require Import base numbers option list gmap strings pretty.

Local Open Scope string_scope.
Local Open Scope list_scope.

(** ** Numbers *)

Inductive jsnum :=
  | Int (z : Z)
  | NaN
  | PosInf
  | NegInf.

Global Instance jsnum_eq_dec : EqDecision jsnum.
Proof. solve_decision. Defined.

(** [a + b] and [a - b] on numbers. *)
Definition js_add (a b : jsnum) : jsnum :=
  match a, b with
  | Int x, Int y => Int (x + y)
  | NaN, _ | _, NaN => NaN
  | PosInf, NegInf | NegInf, PosInf => NaN
  | PosInf, _ | _, PosInf => PosInf
  | NegInf, _ | _, NegInf => NegInf
  end.

Definition js_neg (a : jsnum) : jsnum :=
  match a with
  | Int x => Int (- x)
  | NaN => NaN
  | PosInf => NegInf
  | NegInf => PosInf
  end.

Definition js_sub (a b : jsnum) : jsnum := js_add a (js_neg b).

(** [a < b], [a <= b] and [a === b]: every comparison with [NaN] is false. *)
Definition js_lt (a b : jsnum) : bool :=
  match a, b with
  | Int x, Int y => (x <? y)%Z
  | NaN, _ | _, NaN => false
  | _, NegInf | PosInf, _ => false
  | NegInf, _ | _, PosInf => true
  end.

Definition js_eq (a b : jsnum) : bool :=
  match a, b with
  | Int x, Int y => (x =? y)%Z
  | PosInf, PosInf | NegInf, NegInf => true
  | _, _ => false
  end.

Definition js_le (a b : jsnum) : bool := js_lt a b || js_eq a b.
Definition js_gt (a b : jsnum) : bool := js_lt b a.

(** The double that holds an integer (exact below 2^53). *)
Definition float_of_Z (z : Z) : float :=
  if (z <? 0)%Z then PrimFloat.opp (PrimFloat.of_uint63 (Uint63.of_Z (- z)))
  else PrimFloat.of_uint63 (Uint63.of_Z z).

Definition to_float (a : jsnum) : float :=
  match a with
  | Int z => float_of_Z z
  | NaN => PrimFloat.nan
  | PosInf => PrimFloat.infinity
  | NegInf => PrimFloat.neg_infinity
  end.

(** [Math.round]: the nearest integer, a tie going towards +infinity.  A
    finite double is [m * 2^e] for integers [m] and [e], so the rounding is
    exact integer arithmetic: [floor (m * 2^e + 1/2)]. *)
Definition round_half_up (m e : Z) : Z :=
  if (0 <=? e)%Z then Z.shiftl m e
  else Z.shiftr (m + Z.shiftl 1 (- e - 1)) (- e).

Definition Math_round (x : float) : jsnum :=
  match Prim2SF x with
  | S754_zero _ => Int 0
  | S754_infinity false => PosInf
  | S754_infinity true => NegInf
  | S754_nan => NaN
  | S754_finite s m e =>
      Int (round_half_up (if s then Z.neg m else Z.pos m) e)
  end.

(** [Math.max] on the counters, which are naturals. *)
Definition Math_max (a b : nat) : nat := Nat.max a b.

(** ** CONFIG *)

Module CONFIG.

Record PerfConfig := {
  min : Z;
  message : string;
  class : string
}.

Definition STORAGE_KEY : string := "quizpro_data".

Definition EXCELLENT : PerfConfig :=
  {| min := 90; message := "Excellent! You're a quiz master!"; class := "success" |}.
Definition VERY_GOOD : PerfConfig :=
  {| min := 80; message := "Very Good! Keep up the great work!"; class := "success" |}.
Definition GOOD : PerfConfig :=
  {| min := 70; message := "Good job! You're on the right track!"; class := "info" |}.
Definition FAIR : PerfConfig :=
  {| min := 60; message := "Fair performance. Practice makes perfect!"; class := "warning" |}.
Definition POOR : PerfConfig :=
  {| min := 0; message := "Don't give up! Learning is a journey!"; class := "error" |}.

(** [Object.entries(CONFIG.PERFORMANCE_MESSAGES)]: the entries in the order
    the object literal lists them (the emoji that opens each message is
    dropped). *)
Definition PERFORMANCE_MESSAGES : list (string * PerfConfig) :=
  [ ("EXCELLENT", EXCELLENT); ("VERY_GOOD", VERY_GOOD); ("GOOD", GOOD);
    ("FAIR", FAIR); ("POOR", POOR) ].

End CONFIG.

Global Instance PerfConfig_eq_dec : EqDecision CONFIG.PerfConfig.
Proof. solve_decision. Defined.

(** ** Data *)

(** A question as [ApiService.fetchQuestions] returns it. *)
Record Question := {
  question : string;
  q_category : string;
  correct_answer : string;
  incorrect_answers : list string
}.

Record Settings := {
  numQuestions : jsnum;
  category : string;
  difficulty : string;
  timePerQuestion : jsnum
}.

(** An entry of [userAnswers]; [userAnswer] is [None] for [null]. *)
Record AnswerRecord := {
  a_question : string;
  userAnswer : option string;
  correctAnswer : string;
  isCorrect : bool;
  timeSpent : jsnum
}.

Global Instance Question_eq_dec : EqDecision Question.
Proof. solve_decision. Defined.
Global Instance Settings_eq_dec : EqDecision Settings.
Proof. solve_decision. Defined.
Global Instance AnswerRecord_eq_dec : EqDecision AnswerRecord.
Proof. solve_decision. Defined.

(** Handles of [setInterval] and [setTimeout]: positive, hence truthy. *)
Abbreviation handle := positive.

(** ** class QuizState *)

Record QuizState := {
  questions : list Question;
  currentQuestionIndex : nat;
  score : nat;
  streak : nat;
  bestStreak : nat;
  timeLeft : jsnum;
  timer : option handle;
  startTime : option Z;
  questionStartTime : option Z;
  questionTimes : list jsnum;
  userAnswers : list AnswerRecord;
  settings : Settings;
  isAnswered : bool;
  isQuizActive : bool
}.

(** The constructor. *)
Definition QuizState_new : QuizState :=
  {| questions := [];
     currentQuestionIndex := 0;
     score := 0;
     streak := 0;
     bestStreak := 0;
     timeLeft := Int 0;
     timer := None;
     startTime := None;
     questionStartTime := None;
     questionTimes := [];
     userAnswers := [];
     settings := {| numQuestions := Int 10; category := "";
                    difficulty := "medium"; timePerQuestion := Int 20 |};
     isAnswered := false;
     isQuizActive := false |}.

(** Field assignments [this.f = v] on the state object. *)
Definition set_questions (v : list Question) (r : QuizState) : QuizState :=
  {| questions := v; currentQuestionIndex := currentQuestionIndex r;
     score := score r; streak := streak r; bestStreak := bestStreak r;
     timeLeft := timeLeft r; timer := timer r; startTime := startTime r;
     questionStartTime := questionStartTime r;
     questionTimes := questionTimes r; userAnswers := userAnswers r;
     settings := settings r; isAnswered := isAnswered r;
     isQuizActive := isQuizActive r |}.
Definition set_currentQuestionIndex (v : nat) (r : QuizState) : QuizState :=
  {| questions := questions r; currentQuestionIndex := v; score := score r;
     streak := streak r; bestStreak := bestStreak r; timeLeft := timeLeft r;
     timer := timer r; startTime := startTime r;
     questionStartTime := questionStartTime r;
     questionTimes := questionTimes r; userAnswers := userAnswers r;
     settings := settings r; isAnswered := isAnswered r;
     isQuizActive := isQuizActive r |}.
Definition set_score (v : nat) (r : QuizState) : QuizState :=
  {| questions := questions r;
     currentQuestionIndex := currentQuestionIndex r; score := v;
     streak := streak r; bestStreak := bestStreak r; timeLeft := timeLeft r;
     timer := timer r; startTime := startTime r;
     questionStartTime := questionStartTime r;
     questionTimes := questionTimes r; userAnswers := userAnswers r;
     settings := settings r; isAnswered := isAnswered r;
     isQuizActive := isQuizActive r |}.
Definition set_streak (v : nat) (r : QuizState) : QuizState :=
  {| questions := questions r;
     currentQuestionIndex := currentQuestionIndex r; score := score r;
     streak := v; bestStreak := bestStreak r; timeLeft := timeLeft r;
     timer := timer r; startTime := startTime r;
     questionStartTime := questionStartTime r;
     questionTimes := questionTimes r; userAnswers := userAnswers r;
     settings := settings r; isAnswered := isAnswered r;
     isQuizActive := isQuizActive r |}.
Definition set_bestStreak (v : nat) (r : QuizState) : QuizState :=
  {| questions := questions r;
     currentQuestionIndex := currentQuestionIndex r; score := score r;
     streak := streak r; bestStreak := v; timeLeft := timeLeft r;
     timer := timer r; startTime := startTime r;
     questionStartTime := questionStartTime r;
     questionTimes := questionTimes r; userAnswers := userAnswers r;
     settings := settings r; isAnswered := isAnswered r;
     isQuizActive := isQuizActive r |}.
Definition set_timeLeft (v : jsnum) (r : QuizState) : QuizState :=
  {| questions := questions r;
     currentQuestionIndex := currentQuestionIndex r; score := score r;
     streak := streak r; bestStreak := bestStreak r; timeLeft := v;
     timer := timer r; startTime := startTime r;
     questionStartTime := questionStartTime r;
     questionTimes := questionTimes r; userAnswers := userAnswers r;
     settings := settings r; isAnswered := isAnswered r;
     isQuizActive := isQuizActive r |}.
Definition set_timer (v : option handle) (r : QuizState) : QuizState :=
  {| questions := questions r;
     currentQuestionIndex := currentQuestionIndex r; score := score r;
     streak := streak r; bestStreak := bestStreak r; timeLeft := timeLeft r;
     timer := v; startTime := startTime r;
     questionStartTime := questionStartTime r;
     questionTimes := questionTimes r; userAnswers := userAnswers r;
     settings := settings r; isAnswered := isAnswered r;
     isQuizActive := isQuizActive r |}.
Definition set_startTime (v : option Z) (r : QuizState) : QuizState :=
  {| questions := questions r;
     currentQuestionIndex := currentQuestionIndex r; score := score r;
     streak := streak r; bestStreak := bestStreak r; timeLeft := timeLeft r;
     timer := timer r; startTime := v;
     questionStartTime := questionStartTime r;
     questionTimes := questionTimes r; userAnswers := userAnswers r;
     settings := settings r; isAnswered := isAnswered r;
     isQuizActive := isQuizActive r |}.
Definition set_questionStartTime (v : option Z) (r : QuizState) : QuizState :=
  {| questions := questions r;
     currentQuestionIndex := currentQuestionIndex r; score := score r;
     streak := streak r; bestStreak := bestStreak r; timeLeft := timeLeft r;
     timer := timer r; startTime := startTime r; questionStartTime := v;
     questionTimes := questionTimes r; userAnswers := userAnswers r;
     settings := settings r; isAnswered := isAnswered r;
     isQuizActive := isQuizActive r |}.
Definition set_questionTimes (v : list jsnum) (r : QuizState) : QuizState :=
  {| questions := questions r;
     currentQuestionIndex := currentQuestionIndex r; score := score r;
     streak := streak r; bestStreak := bestStreak r; timeLeft := timeLeft r;
     timer := timer r; startTime := startTime r;
     questionStartTime := questionStartTime r; questionTimes := v;
     userAnswers := userAnswers r; settings := settings r;
     isAnswered := isAnswered r; isQuizActive := isQuizActive r |}.
Definition set_userAnswers (v : list AnswerRecord) (r : QuizState) : QuizState :=
  {| questions := questions r;
     currentQuestionIndex := currentQuestionIndex r; score := score r;
     streak := streak r; bestStreak := bestStreak r; timeLeft := timeLeft r;
     timer := timer r; startTime := startTime r;
     questionStartTime := questionStartTime r;
     questionTimes := questionTimes r; userAnswers := v;
     settings := settings r; isAnswered := isAnswered r;
     isQuizActive := isQuizActive r |}.
Definition set_settings (v : Settings) (r : QuizState) : QuizState :=
  {| questions := questions r;
     currentQuestionIndex := currentQuestionIndex r; score := score r;
     streak := streak r; bestStreak := bestStreak r; timeLeft := timeLeft r;
     timer := timer r; startTime := startTime r;
     questionStartTime := questionStartTime r;
     questionTimes := questionTimes r; userAnswers := userAnswers r;
     settings := v; isAnswered := isAnswered r;
     isQuizActive := isQuizActive r |}.
Definition set_isAnswered (v : bool) (r : QuizState) : QuizState :=
  {| questions := questions r;
     currentQuestionIndex := currentQuestionIndex r; score := score r;
     streak := streak r; bestStreak := bestStreak r; timeLeft := timeLeft r;
     timer := timer r; startTime := startTime r;
     questionStartTime := questionStartTime r;
     questionTimes := questionTimes r; userAnswers := userAnswers r;
     settings := settings r; isAnswered := v;
     isQuizActive := isQuizActive r |}.
Definition set_isQuizActive (v : bool) (r : QuizState) : QuizState :=
  {| questions := questions r;
     currentQuestionIndex := currentQuestionIndex r; score := score r;
     streak := streak r; bestStreak := bestStreak r; timeLeft := timeLeft r;
     timer := timer r; startTime := startTime r;
     questionStartTime := questionStartTime r;
     questionTimes := questionTimes r; userAnswers := userAnswers r;
     settings := settings r; isAnswered := isAnswered r;
     isQuizActive := v |}.

(** ** The page

    What the methods write to the document and read back from it. *)

Inductive Screen := StartScreen | QuizScreen | EndScreen | ReviewScreen.

(** The three buttons of the quiz screen, as [updateButtonStates] and
    [selectAnswer] leave them. *)
Record Buttons := {
  submitHidden : bool;
  submitDisabled : bool;
  nextHidden : bool;
  skipHidden : bool
}.

(** What [showResults] writes to the end screen. *)
Record ResultsView := {
  finalScore : nat;
  totalScore : nat;
  scorePercentage : jsnum;
  correctCount : nat;
  incorrectCount : Z;
  avgTime : jsnum;
  bestStreakShown : nat;
  performanceData : CONFIG.PerfConfig
}.

Record Dom := {
  (** the screen [switchScreen] left visible *)
  screen : Screen;
  (** the [.answer] elements of [.answer-wrapper], by the text of their
      [.text] span; an answer is taken to display as the string it was
      built from (no markup in it) *)
  answers : list string;
  (** the position of the element that carries the class [selected] *)
  selected : option nat;
  (** title and message of the error modal while it is shown *)
  errorModal : option (string * string);
  loadingOverlay : bool;
  (** the setup form as [collectSettings] reads it: [parseInt] of the two
      numeric fields, the value of the two selects *)
  form : Settings;
  buttons : Buttons;
  results : option ResultsView;
  review : list AnswerRecord
}.

Definition set_screen (v : Screen) (r : Dom) : Dom :=
  {| screen := v; answers := answers r; selected := selected r;
     errorModal := errorModal r; loadingOverlay := loadingOverlay r;
     form := form r; buttons := buttons r; results := results r;
     review := review r |}.
Definition set_answers (v : list string) (r : Dom) : Dom :=
  {| screen := screen r; answers := v; selected := selected r;
     errorModal := errorModal r; loadingOverlay := loadingOverlay r;
     form := form r; buttons := buttons r; results := results r;
     review := review r |}.
Definition set_selected (v : option nat) (r : Dom) : Dom :=
  {| screen := screen r; answers := answers r; selected := v;
     errorModal := errorModal r; loadingOverlay := loadingOverlay r;
     form := form r; buttons := buttons r; results := results r;
     review := review r |}.
Definition set_errorModal (v : option (string * string)) (r : Dom) : Dom :=
  {| screen := screen r; answers := answers r; selected := selected r;
     errorModal := v; loadingOverlay := loadingOverlay r; form := form r;
     buttons := buttons r; results := results r; review := review r |}.
Definition set_loadingOverlay (v : bool) (r : Dom) : Dom :=
  {| screen := screen r; answers := answers r; selected := selected r;
     errorModal := errorModal r; loadingOverlay := v; form := form r;
     buttons := buttons r; results := results r; review := review r |}.
Definition set_form (v : Settings) (r : Dom) : Dom :=
  {| screen := screen r; answers := answers r; selected := selected r;
     errorModal := errorModal r; loadingOverlay := loadingOverlay r;
     form := v; buttons := buttons r; results := results r;
     review := review r |}.
Definition set_buttons (v : Buttons) (r : Dom) : Dom :=
  {| screen := screen r; answers := answers r; selected := selected r;
     errorModal := errorModal r; loadingOverlay := loadingOverlay r;
     form := form r; buttons := v; results := results r;
     review := review r |}.
Definition set_results (v : option ResultsView) (r : Dom) : Dom :=
  {| screen := screen r; answers := answers r; selected := selected r;
     errorModal := errorModal r; loadingOverlay := loadingOverlay r;
     form := form r; buttons := buttons r; results := v;
     review := review r |}.
Definition set_review (v : list AnswerRecord) (r : Dom) : Dom :=
  {| screen := screen r; answers := answers r; selected := selected r;
     errorModal := errorModal r; loadingOverlay := loadingOverlay r;
     form := form r; buttons := buttons r; results := results r;
     review := v |}.

(** ** The browser *)

(** The object [saveSettings] stores under [CONFIG.STORAGE_KEY] (its JSON
    text is not modelled). *)
Record SavedData := {
  saved_settings : Settings;
  timestamp : Z
}.

Record Browser := {
  (** live [setInterval] registrations *)
  intervals : gset handle;
  (** pending [setTimeout] registrations of [handleTimeUp] *)
  timeouts : gset handle;
  nextHandle : handle;
  (** requests of [startQuiz] that have not settled yet *)
  fetches : nat;
  localStorage : option SavedData;
  (** [localStorage.setItem] raises (quota, privacy mode) *)
  storageThrows : bool;
  (** [Date.now()] *)
  now : Z;
  (** the oracle behind [Math.random()], by call, and the calls made *)
  random : nat -> Q;
  randomCalls : nat
}.

Definition set_intervals (v : gset handle) (r : Browser) : Browser :=
  {| intervals := v; timeouts := timeouts r; nextHandle := nextHandle r;
     fetches := fetches r; localStorage := localStorage r;
     storageThrows := storageThrows r; now := now r; random := random r;
     randomCalls := randomCalls r |}.
Definition set_timeouts (v : gset handle) (r : Browser) : Browser :=
  {| intervals := intervals r; timeouts := v; nextHandle := nextHandle r;
     fetches := fetches r; localStorage := localStorage r;
     storageThrows := storageThrows r; now := now r; random := random r;
     randomCalls := randomCalls r |}.
Definition set_nextHandle (v : handle) (r : Browser) : Browser :=
  {| intervals := intervals r; timeouts := timeouts r; nextHandle := v;
     fetches := fetches r; localStorage := localStorage r;
     storageThrows := storageThrows r; now := now r; random := random r;
     randomCalls := randomCalls r |}.
Definition set_fetches (v : nat) (r : Browser) : Browser :=
  {| intervals := intervals r; timeouts := timeouts r;
     nextHandle := nextHandle r; fetches := v;
     localStorage := localStorage r; storageThrows := storageThrows r;
     now := now r; random := random r; randomCalls := randomCalls r |}.
Definition set_localStorage (v : option SavedData) (r : Browser) : Browser :=
  {| intervals := intervals r; timeouts := timeouts r;
     nextHandle := nextHandle r; fetches := fetches r; localStorage := v;
     storageThrows := storageThrows r; now := now r; random := random r;
     randomCalls := randomCalls r |}.
Definition set_now (v : Z) (r : Browser) : Browser :=
  {| intervals := intervals r; timeouts := timeouts r;
     nextHandle := nextHandle r; fetches := fetches r;
     localStorage := localStorage r; storageThrows := storageThrows r;
     now := v; random := random r; randomCalls := randomCalls r |}.
Definition set_randomCalls (v : nat) (r : Browser) : Browser :=
  {| intervals := intervals r; timeouts := timeouts r;
     nextHandle := nextHandle r; fetches := fetches r;
     localStorage := localStorage r; storageThrows := storageThrows r;
     now := now r; random := random r; randomCalls := v |}.

(** ** The world and the method monad *)

Record App := {
  state : QuizState;
  document : Dom;
  env : Browser
}.

Definition on_state (f : QuizState -> QuizState) (w : App) : App :=
  {| state := f (state w); document := document w; env := env w |}.
Definition on_document (f : Dom -> Dom) (w : App) : App :=
  {| state := state w; document := f (document w); env := env w |}.
Definition on_env (f : Browser -> Browser) (w : App) : App :=
  {| state := state w; document := document w; env := f (env w) |}.

Inductive outcome (A : Type) :=
  | Returned (a : A)
  | Thrown (error : string).
Arguments Returned {A} a.
Arguments Thrown {A} error.

Definition M (A : Type) : Type := App -> outcome A * App.

Definition ret {A} (a : A) : M A := fun w => (Returned a, w).

Definition bind {A B} (m : M A) (k : A -> M B) : M B :=
  fun w =>
    match m w with
    | (Returned a, w') => k a w'
    | (Thrown e, w') => (Thrown e, w')
    end.

Definition throw {A} (e : string) : M A := fun w => (Thrown e, w).

(** [try { m } catch (error) { h error.message }] *)
Definition try_catch {A} (m : M A) (h : string -> M A) : M A :=
  fun w =>
    match m w with
    | (Returned a, w') => (Returned a, w')
    | (Thrown e, w') => h e w'
    end.

Definition get : M App := fun w => (Returned w, w).
Definition modify (f : App -> App) : M unit := fun w => (Returned tt, f w).

Declare Scope js_scope.
Delimit Scope js_scope with js.
Notation "x <- m ;; k" := (bind m (fun x => k))
  (at level 100, m at next level, right associativity) : js_scope.
Notation "m ;; k" := (bind m (fun _ => k))
  (at level 100, right associativity) : js_scope.
Local Open Scope js_scope.

(** The world a method leaves behind, whether it returned or raised. *)
Definition exec {A} (m : M A) (w : App) : App := (m w).2.

(** Reading a property of [v]: a [TypeError] when [v] is [undefined]. *)
Definition defined {A} (v : option A) : M A :=
  match v with
  | Some a => ret a
  | None => throw "TypeError: Cannot read properties of undefined"
  end.

(** ** Browser services *)

Definition setInterval : M handle :=
  w <- get;;
  let h := nextHandle (env w) in
  modify (on_env (fun e =>
    set_nextHandle (Pos.succ h) (set_intervals ({[h]} ∪ intervals e) e)));;
  ret h.

Definition clearInterval (h : handle) : M unit :=
  modify (on_env (fun e => set_intervals (intervals e ∖ {[h]}) e)).

Definition setTimeout : M handle :=
  w <- get;;
  let h := nextHandle (env w) in
  modify (on_env (fun e =>
    set_nextHandle (Pos.succ h) (set_timeouts ({[h]} ∪ timeouts e) e)));;
  ret h.

Definition Date_now : M Z := w <- get;; ret (now (env w)).

(** [Math.random()] is a number in [[0, 1)]: call [c] returns the oracle's
    value for that call, taken modulo 1. *)
Definition Math_random (rnd : nat -> Q) (c : nat) : Q :=
  rnd c - inject_Z (Qfloor (rnd c)).

(** ** QuizState methods *)

Definition clearTimer : M unit :=
  w <- get;;
  match timer (state w) with
  | Some h => clearInterval h;; modify (on_state (set_timer None))
  | None => ret tt
  end.

Definition reset : M unit :=
  modify (on_state (set_currentQuestionIndex 0));;
  modify (on_state (set_score 0));;
  modify (on_state (set_streak 0));;
  modify (on_state (set_bestStreak 0));;
  modify (on_state (set_questionTimes []));;
  modify (on_state (set_userAnswers []));;
  modify (on_state (set_isAnswered false));;
  modify (on_state (set_isQuizActive false));;
  clearTimer.

Definition incrementScore : M unit :=
  modify (on_state (fun q => set_score (S (score q)) q));;
  modify (on_state (fun q => set_streak (S (streak q)) q));;
  modify (on_state (fun q =>
    set_bestStreak (Math_max (bestStreak q) (streak q)) q)).

Definition resetStreak : M unit := modify (on_state (set_streak 0)).

(** [if (this.questionStartTime)]: neither [null] nor zero. *)
Definition truthy (t : option Z) : bool :=
  match t with
  | Some z => negb (z =? 0)%Z
  | None => false
  end.

Definition recordQuestionTime : M unit :=
  w <- get;;
  if truthy (questionStartTime (state w)) then
    let timeSpent :=
      js_sub (timePerQuestion (settings (state w))) (timeLeft (state w)) in
    modify (on_state (fun q =>
      set_questionTimes (questionTimes q ++ [timeSpent]) q))
  else ret tt.

Definition getAverageTime (q : QuizState) : jsnum :=
  if (length (questionTimes q) =? 0)%nat then Int 0
  else
    let total := foldl js_add (Int 0) (questionTimes q) in
    Math_round
      (PrimFloat.div (to_float total)
                     (float_of_Z (Z.of_nat (length (questionTimes q))))).

(** [percentage >= config.min] on doubles. *)
Definition float_ge (x y : float) : bool := PrimFloat.leb y x.

Definition getPerformanceMessage (q : QuizState) : CONFIG.PerfConfig :=
  let percentage :=
    PrimFloat.mul
      (PrimFloat.div (float_of_Z (Z.of_nat (score q)))
                     (float_of_Z (Z.of_nat (length (questions q)))))
      (float_of_Z 100) in
  match
    find (fun kc : string * CONFIG.PerfConfig =>
            float_ge percentage (float_of_Z (CONFIG.min kc.2)))
         CONFIG.PERFORMANCE_MESSAGES
  with
  | Some kc => kc.2
  | None => CONFIG.POOR
  end.

(** ** Utils *)

Section shuffleArray.

Context {A : Type}.

(** Arrays are objects: a store maps a reference to the elements it holds
    now.  [shuffleArray] receives a reference and returns one. *)
Definition alloc (h : gmap nat (list A)) (l : list A) : gmap nat (list A) * nat :=
  let r := fresh (dom h) in (<[r := l]> h, r).

(** [[a[i], a[j]] = [a[j], a[i]]]: both reads, then the write to [i], then
    the write to [j].  The source only reaches it with [j <= i < length]. *)
Definition swap (i j : nat) (a : list A) : list A :=
  match a !! i, a !! j with
  | Some x, Some y => <[j := x]> (<[i := y]> a)
  | _, _ => a
  end.

(** [Math.floor(Math.random() * (i + 1))] at call [c]; the product is taken
    exactly. *)
Definition random_index (rnd : nat -> Q) (c : nat) (i : nat) : nat :=
  Z.to_nat (Qfloor (Math_random rnd c * inject_Z (Z.of_nat (i + 1)))).

(** The loop [for (let i = length - 1; i > 0; i--)], entered at [i], drawing
    from call [c] of the random source on; it returns the store and the
    number of the next call. *)
Fixpoint shuffle_loop (rnd : nat -> Q) (shuffled : nat) (i : nat) (c : nat)
    (h : gmap nat (list A)) : gmap nat (list A) * nat :=
  match i with
  | O => (h, c)
  | S i' =>
      let j := random_index rnd c i in
      shuffle_loop rnd shuffled i' (S c) (alter (swap i j) shuffled h)
  end.

Definition shuffleArray (rnd : nat -> Q) (c : nat) (h : gmap nat (list A))
    (array : nat) : gmap nat (list A) * nat * nat :=
  let '(h1, shuffled) := alloc h (default [] (h !! array)) in
  let n := length (default [] (h1 !! shuffled)) in
  let '(h2, c') := shuffle_loop rnd shuffled (n - 1) c h1 in
  (h2, shuffled, c').

End shuffleArray.

Definition saveToStorage (data : SavedData) : M unit :=
  w <- get;;
  if storageThrows (env w) then ret tt
  else modify (on_env (set_localStorage (Some data))).

(** ** UIComponents *)

Definition showLoading : M unit := modify (on_document (set_loadingOverlay true)).
Definition hideLoading : M unit := modify (on_document (set_loadingOverlay false)).

Definition showError (title message : string) : M unit :=
  modify (on_document (set_errorModal (Some (title, message)))).

Definition hideError : M unit := modify (on_document (set_errorModal None)).

Definition switchScreen (showClass : Screen) : M unit :=
  modify (on_document (set_screen showClass)).

(** ** class QuizApp *)

(** [document.querySelector('.answer.selected')], by the text of its
    [.text] span. *)
Definition selectedAnswer (d : Dom) : option string :=
  match selected d with
  | Some i => answers d !! i
  | None => None
  end.

Definition saveSettings : M unit :=
  w <- get;;
  t <- Date_now;;
  saveToStorage {| saved_settings := settings (state w); timestamp := t |}.

Definition collectSettings : M unit :=
  w <- get;;
  modify (on_state (set_settings
    {| numQuestions := numQuestions (form (document w));
       category := category (form (document w));
       difficulty := difficulty (form (document w));
       timePerQuestion := timePerQuestion (form (document w)) |})).

Definition validateSettings : M bool :=
  w <- get;;
  let numQuestions := numQuestions (settings (state w)) in
  let timePerQuestion := timePerQuestion (settings (state w)) in
  if js_lt numQuestions (Int 1) || js_gt numQuestions (Int 50) then
    showError "Invalid Settings" "Number of questions must be between 1 and 50";;
    ret false
  else if js_lt timePerQuestion (Int 5) || js_gt timePerQuestion (Int 300) then
    showError "Invalid Settings"
              "Time per question must be between 5 and 300 seconds";;
    ret false
  else ret true.

Definition updateButtonStates : M unit :=
  w <- get;;
  if isAnswered (state w) then
    modify (on_document (fun d => set_buttons
      {| submitHidden := true; submitDisabled := submitDisabled (buttons d);
         nextHidden := false; skipHidden := true |} d))
  else
    modify (on_document (fun d => set_buttons
      {| submitHidden := false;
         submitDisabled := negb (bool_decide (is_Some (selectedAnswer d)));
         nextHidden := true; skipHidden := false |} d)).

Definition showResults : M unit :=
  switchScreen EndScreen;;
  w <- get;;
  let q := state w in
  let totalQuestions := length (questions q) in
  let percentage :=
    Math_round
      (PrimFloat.mul
         (PrimFloat.div (float_of_Z (Z.of_nat (score q)))
                        (float_of_Z (Z.of_nat totalQuestions)))
         (float_of_Z 100)) in
  let incorrectCount := (Z.of_nat totalQuestions - Z.of_nat (score q))%Z in
  let avgTime := getAverageTime q in
  let performanceData := getPerformanceMessage q in
  modify (on_document (set_results (Some
    {| finalScore := score q; totalScore := totalQuestions;
       scorePercentage := percentage; correctCount := score q;
       incorrectCount := incorrectCount; avgTime := avgTime;
       bestStreakShown := bestStreak q;
       performanceData := performanceData |}))).

Definition endQuiz : M unit :=
  modify (on_state (set_isQuizActive false));;
  clearTimer;;
  showResults.

(** [startTimer] registers [interval_callback] (below) with [setInterval]
    and keeps the handle; nothing is cleared first. *)
Definition startTimer : M unit :=
  modify (on_state (fun q => set_timeLeft (timePerQuestion (settings q)) q));;
  h <- setInterval;;
  modify (on_state (set_timer (Some h))).

(** [Utils.shuffleArray(allAnswers)] for a new array [allAnswers] that holds
    [l]: the elements of the array it returns, and the number of the next
    call of the random source. *)
Definition shuffle_new {A} (rnd : nat -> Q) (c : nat) (l : list A) : list A * nat :=
  let '(h, allAnswers) := alloc ∅ l in
  let '(h', shuffledAnswers, c') := shuffleArray rnd c h allAnswers in
  (default [] (h' !! shuffledAnswers), c').

Definition generateAnswers (qn : Question) : M unit :=
  w <- get;;
  let '(shuffledAnswers, c) :=
    shuffle_new (random (env w)) (randomCalls (env w))
                (incorrect_answers qn ++ [correct_answer qn]) in
  modify (on_env (set_randomCalls c));;
  modify (on_document (set_selected None));;
  modify (on_document (set_answers shuffledAnswers)).

Definition showQuestion (index : nat) : M unit :=
  w <- get;;
  if (length (questions (state w)) <=? index)%nat then endQuiz
  else
    qn <- defined (questions (state w) !! index);;
    modify (on_state (set_currentQuestionIndex index));;
    modify (on_state (set_isAnswered false));;
    t <- Date_now;;
    modify (on_state (set_questionStartTime (Some t)));;
    generateAnswers qn;;
    updateButtonStates;;
    startTimer.

Definition selectAnswer (selectedElement : nat) : M unit :=
  w <- get;;
  if isAnswered (state w) then ret tt
  else
    modify (on_document (set_selected (Some selectedElement)));;
    modify (on_document (fun d => set_buttons
      {| submitHidden := submitHidden (buttons d); submitDisabled := false;
         nextHidden := nextHidden (buttons d);
         skipHidden := skipHidden (buttons d) |} d)).

Definition push_userAnswer (r : AnswerRecord) : M unit :=
  modify (on_state (fun q => set_userAnswers (userAnswers q ++ [r]) q)).

Definition submitAnswer : M unit :=
  w <- get;;
  if isAnswered (state w) then ret tt
  else
    modify (on_state (set_isAnswered true));;
    clearTimer;;
    recordQuestionTime;;
    w <- get;;
    let selectedAnswer := selectedAnswer (document w) in
    let current :=
      questions (state w) !! currentQuestionIndex (state w) in
    match selectedAnswer with
    | Some answer =>
        qn <- defined current;;
        let isCorrect := bool_decide (answer = correct_answer qn) in
        push_userAnswer
          {| a_question := question qn;
             userAnswer := Some answer;
             correctAnswer := correct_answer qn;
             isCorrect := isCorrect;
             timeSpent := js_sub (timePerQuestion (settings (state w)))
                                 (timeLeft (state w)) |};;
        (if isCorrect then incrementScore else resetStreak)
    | None =>
        resetStreak;;
        qn <- defined current;;
        push_userAnswer
          {| a_question := question qn;
             userAnswer := None;
             correctAnswer := correct_answer qn;
             isCorrect := false;
             timeSpent := timePerQuestion (settings (state w)) |}
    end;;
    updateButtonStates.

Definition nextQuestion : M unit :=
  w <- get;;
  let nextIndex := currentQuestionIndex (state w) + 1 in
  if (nextIndex <? length (questions (state w)))%nat then showQuestion nextIndex
  else endQuiz.

Definition skipQuestion : M unit :=
  w <- get;;
  if isAnswered (state w) then ret tt
  else
    modify (on_state (set_isAnswered true));;
    clearTimer;;
    resetStreak;;
    w <- get;;
    qn <- defined (questions (state w) !! currentQuestionIndex (state w));;
    push_userAnswer
      {| a_question := question qn;
         userAnswer := Some "Skipped";
         correctAnswer := correct_answer qn;
         isCorrect := false;
         timeSpent := Int 0 |};;
    updateButtonStates.

Definition handleTimeUp : M unit :=
  w <- get;;
  if isAnswered (state w) then ret tt
  else
    clearTimer;;
    submitAnswer;;
    _ <- setTimeout;;
    ret tt.

(** The function [startTimer] hands to [setInterval]. *)
Definition interval_callback : M unit :=
  modify (on_state (fun q => set_timeLeft (js_sub (timeLeft q) (Int 1)) q));;
  w <- get;;
  if js_le (timeLeft (state w)) (Int 0) then handleTimeUp else ret tt.

(** The function [handleTimeUp] hands to [setTimeout]. *)
Definition timeout_callback : M unit :=
  w <- get;;
  if (Z.of_nat (currentQuestionIndex (state w))
        <? Z.of_nat (length (questions (state w))) - 1)%Z
  then nextQuestion
  else endQuiz.

Definition showReview : M unit :=
  switchScreen ReviewScreen;;
  w <- get;;
  modify (on_document (set_review (userAnswers (state w)))).

Definition quitQuiz : M unit := reset;; switchScreen StartScreen.

Definition restartQuiz : M unit := reset;; switchScreen StartScreen.

(** What [await ApiService.fetchQuestions(...)] comes back with: the array
    of decoded questions, or an [Error] with its message. *)
Inductive FetchOutcome :=
  | Resolved (results : list Question)
  | Rejected (error : string).

(** [startQuiz] up to its [await]: [true] when the request was sent. *)
Definition startQuiz_request : M bool :=
  collectSettings;;
  saveSettings;;
  valid <- validateSettings;;
  if negb valid then ret false
  else
    showLoading;;
    modify (on_env (fun e => set_fetches (S (fetches e)) e));;
    ret true.

(** [startQuiz] from its [await] on, inside the [try] of the method. *)
Definition startQuiz_settle (o : FetchOutcome) : M unit :=
  try_catch
    (fetched <- match o with
                | Resolved results => ret results
                | Rejected error => throw error
                end;;
     modify (on_state (set_questions fetched));;
     w <- get;;
     (if (length (questions (state w)) =? 0)%nat
      then throw "No questions received from the server"
      else ret tt);;
     reset;;
     modify (on_state (set_isQuizActive true));;
     t <- Date_now;;
     modify (on_state (set_startTime (Some t)));;
     hideLoading;;
     switchScreen QuizScreen;;
     showQuestion 0)
    (fun error =>
       hideLoading;;
       showError "Failed to Start Quiz" error).

(** A whole call of [startQuiz] whose request, if one is sent, settles with
    [o] before any other event is handled. *)
Definition startQuiz (o : FetchOutcome) : M unit :=
  sent <- startQuiz_request;;
  if sent then
    modify (on_env (fun e => set_fetches (pred (fetches e)) e));;
    startQuiz_settle o
  else ret tt.

(** ** class EventHandlers *)

Inductive Key :=
  | KeyEnter
  | KeyN
  | KeyEscape
  | KeyDigit (d : nat)
  | KeyOther.

(** [parseInt(e.key)] *)
Definition parseInt_key (k : Key) : jsnum :=
  match k with
  | KeyDigit d => Int (Z.of_nat d)
  | _ => NaN
  end.

Definition handleSubmitAnswer : M unit := submitAnswer.
Definition handleNextQuestion : M unit := nextQuestion.
Definition handleSkipQuestion : M unit := skipQuestion.

(** [confirmed] is the answer to the [confirm] dialog. *)
Definition handleQuitQuiz (confirmed : bool) : M unit :=
  if confirmed then quitQuiz else ret tt.

(** A click on the [.answer] element at position [i], if there is one. *)
Definition click_answer (i : nat) : M unit :=
  w <- get;;
  if (i <? length (answers (document w)))%nat then selectAnswer i else ret tt.

(** [handleKeyboard(e)] with [ctrl] for [e.ctrlKey || e.metaKey]. *)
Definition handleKeyboard (ctrl : bool) (key : Key) : M unit :=
  (if ctrl then
     match key with
     | KeyEnter =>
         w <- get;;
         if isQuizActive (state w) && negb (isAnswered (state w))
         then handleSubmitAnswer else ret tt
     | KeyN =>
         w <- get;;
         if isAnswered (state w) then handleNextQuestion else ret tt
     | _ => ret tt
     end
   else ret tt);;
  (match key with
   | KeyEscape =>
       w <- get;;
       if bool_decide (is_Some (errorModal (document w)))
       then hideError else ret tt
   | _ => ret tt
   end);;
  w <- get;;
  if isQuizActive (state w) && negb (isAnswered (state w)) then
    match parseInt_key key with
    | Int num =>
        if (1 <=? num)%Z && (num <=? 4)%Z
        then click_answer (Z.to_nat (num - 1))
        else ret tt
    | _ => ret tt
    end
  else ret tt.

(** ** The event loop *)

Inductive Event :=
  | StartClicked
  | FetchSettled (o : FetchOutcome)
  | AnswerClicked (i : nat)
  | SubmitClicked
  | NextClicked
  | SkipClicked
  | QuitClicked (confirmed : bool)
  | RestartClicked
  | ReviewClicked
  | BackToResultsClicked
  | ErrorCloseClicked
  | KeyDown (ctrl : bool) (key : Key)
  | IntervalFired (h : handle)
  | TimeoutFired (h : handle)
  | ClockAdvanced (t : Z).

(** The listener the event reaches.  A cleared interval does not fire, a
    timeout fires once, and a request settles once.  [ClockAdvanced t] is
    no event of the page: time passes and [Date.now()] is [t] from now on. *)
Definition dispatch (e : Event) : M unit :=
  match e with
  | StartClicked => _ <- startQuiz_request;; ret tt
  | FetchSettled o =>
      w <- get;;
      match fetches (env w) with
      | O => ret tt
      | S n => modify (on_env (set_fetches n));; startQuiz_settle o
      end
  | AnswerClicked i => click_answer i
  | SubmitClicked => handleSubmitAnswer
  | NextClicked => handleNextQuestion
  | SkipClicked => handleSkipQuestion
  | QuitClicked confirmed => handleQuitQuiz confirmed
  | RestartClicked => restartQuiz
  | ReviewClicked => showReview
  | BackToResultsClicked => showResults
  | ErrorCloseClicked => hideError
  | KeyDown ctrl key => handleKeyboard ctrl key
  | IntervalFired h =>
      w <- get;;
      if bool_decide (h ∈ intervals (env w)) then interval_callback else ret tt
  | TimeoutFired h =>
      w <- get;;
      if bool_decide (h ∈ timeouts (env w)) then
        modify (on_env (fun e => set_timeouts (timeouts e ∖ {[h]}) e));;
        timeout_callback
      else ret tt
  | ClockAdvanced t => modify (on_env (set_now t))
  end.

(** The listener of the window's [error] event, which the browser calls
    with an exception that no handler caught. *)
Definition window_onerror : M unit :=
  showError "Application Error"
    "An unexpected error occurred. Please refresh the page and try again.".

Definition step (w : App) (e : Event) : App :=
  exec (try_catch (dispatch e) (fun _ => window_onerror)) w.

Definition run (w : App) (es : list Event) : App := foldl step w es.

(** [new QuizApp()]: a fresh state object, whose settings [loadSettings]
    replaces by the stored ones if there are any and copies to the form. *)
Definition QuizApp_new (d : Dom) (e : Browser) : App :=
  match localStorage e with
  | Some savedData =>
      {| state := set_settings (saved_settings savedData) QuizState_new;
         document := set_form (saved_settings savedData) d;
         env := e |}
  | None => {| state := QuizState_new; document := d; env := e |}
  end.

(** The worlds the page can be in.  Any listener may run at any time: the
    buttons that the page hides at a given moment are not taken out, so the
    set is, if anything, larger than what a user can produce. *)
Inductive reachable : App -> Prop :=
  | reachable_new d e : reachable (QuizApp_new d e)
  | reachable_step w ev : reachable w -> reachable (step w ev).

(** ** Vocabulary of the statements *)

(** The three ways a question gets resolved. *)
Inductive Resolution := BySubmit | ByTimeout | BySkip.

Definition resolve (r : Resolution) : M unit :=
  match r with
  | BySubmit => submitAnswer
  | ByTimeout => handleTimeUp
  | BySkip => skipQuestion
  end.

Definition resolve_all (w : App) (rs : list Resolution) : App :=
  foldl (fun w r => exec (resolve r) w) w rs.

(** The question [questions[currentQuestionIndex]], if there is one. *)
Definition currentQuestion (q : QuizState) : option Question :=
  questions q !! currentQuestionIndex q.

(** The world [clearTimer] leaves. *)
Definition cleared (w : App) : App := (clearTimer w).2.

(** The number of records with [isCorrect]. *)
Fixpoint count_correct (l : list AnswerRecord) : nat :=
  match l with
  | [] => 0
  | a :: l' => (if isCorrect a then 1 else 0) + count_correct l'
  end.

(** The events whose handler calls [reset]: they end the session the
    counters belong to. *)
Definition new_session (w : App) (ev : Event) : bool :=
  match ev with
  | QuitClicked true | RestartClicked => true
  | FetchSettled (Resolved (_ :: _)) => negb (fetches (env w) =? 0)%nat
  | _ => false
  end.

(** What one event does to the counters and the records. *)
Inductive tally_step (q q' : QuizState) : Prop :=
  | tally_same :
      userAnswers q' = userAnswers q -> score q' = score q ->
      streak q' = streak q -> bestStreak q' = bestStreak q ->
      tally_step q q'
  | tally_correct a :
      userAnswers q' = userAnswers q ++ [a] -> isCorrect a = true ->
      score q' = S (score q) -> streak q' = S (streak q) ->
      bestStreak q' = Nat.max (bestStreak q) (S (streak q)) ->
      tally_step q q'
  | tally_incorrect a :
      userAnswers q' = userAnswers q ++ [a] -> isCorrect a = false ->
      score q' = score q -> streak q' = 0 ->
      bestStreak q' = bestStreak q ->
      tally_step q q'
  | tally_streak_lost :
      userAnswers q' = userAnswers q -> score q' = score q ->
      streak q' = 0 -> bestStreak q' = bestStreak q ->
      tally_step q q'.

(** [session_best w m]: the page can be in [w], and [m] is the largest
    [streak] seen after an event since the current session began. *)
Inductive session_best : App -> nat -> Prop :=
  | session_best_new d e : session_best (QuizApp_new d e) 0
  | session_best_begin w m ev :
      session_best w m -> new_session w ev = true ->
      session_best (step w ev) (streak (state (step w ev)))
  | session_best_step w m ev :
      session_best w m -> new_session w ev = false ->
      session_best (step w ev) (Nat.max m (streak (state (step w ev)))).

(** ** Sample sessions

    Concrete pages and event sequences, used to run the model. *)

Module Sample.

Definition paris : Question :=
  {| question := "What is the capital of France?"; q_category := "Geography";
     correct_answer := "Paris";
     incorrect_answers := ["Rome"; "Oslo"; "Bern"] |}.

Definition four : Question :=
  {| question := "What is 2 + 2?"; q_category := "Mathematics";
     correct_answer := "4";
     incorrect_answers := ["3"; "5"; "6"] |}.

Definition mars : Question :=
  {| question := "Which planet is the red planet?"; q_category := "Science";
     correct_answer := "Mars";
     incorrect_answers := ["Venus"; "Pluto"; "Earth"] |}.

(** The page as it loads, with [n] questions and [t] seconds entered in the
    setup form. *)
Definition page (n t : Z) : Dom :=
  {| screen := StartScreen; answers := []; selected := None;
     errorModal := None; loadingOverlay := false;
     form := {| numQuestions := Int n; category := "";
                difficulty := "medium"; timePerQuestion := Int t |};
     buttons := {| submitHidden := false; submitDisabled := true;
                   nextHidden := true; skipHidden := false |};
     results := None; review := [] |}.

Definition browser : Browser :=
  {| intervals := ∅; timeouts := ∅; nextHandle := 1%positive; fetches := 0;
     localStorage := None; storageThrows := false;
     now := 1755648000000%Z;
     random := fun n => (Z.of_nat n + 1 # 3)%Q;
     randomCalls := 0 |}.

Definition opened (n t : Z) : App := QuizApp_new (page n t) browser.

(** Start is clicked and the request comes back with [qs]. *)
Definition started (n t : Z) (qs : list Question) : App :=
  run (opened n t) [StartClicked; FetchSettled (Resolved qs)].

(** Three questions at five seconds each; the countdown of the first one
    (handle 1) runs out, the user clicks Next while the answer is shown,
    and then the delayed callback of [handleTimeUp] (handle 2) fires. *)
Definition timed_out : App :=
  run (started 3 5 [paris; four; mars]) (replicate 5 (IntervalFired 1%positive)).

Definition advanced_twice : App :=
  run timed_out [NextClicked; TimeoutFired 2%positive].

(** One question at twenty seconds; eight seconds pass and the user presses
    Ctrl+Enter without having selected an answer. *)
Definition eight_seconds_in : App :=
  run (started 1 20 [paris]) (replicate 8 (IntervalFired 1%positive)).

Definition submitted_empty : App :=
  step eight_seconds_in (KeyDown true KeyEnter).

(** Two questions at twenty seconds: the first is answered with the third
    option after two seconds, the second is skipped, and the quiz ends. *)
Definition answered_then_skipped : App :=
  run (started 2 20 [paris; four])
      [IntervalFired 1%positive; IntervalFired 1%positive;
       AnswerClicked 2; SubmitClicked; NextClicked;
       SkipClicked; NextClicked].

(** A finished one-question quiz, and Restart: the idle page a second quiz
    starts from. *)
Definition idle_again : App :=
  run (started 1 20 [paris])
      [AnswerClicked 0; SubmitClicked; NextClicked; RestartClicked].

(** A session of 29 questions with 26 correct answers, about to show its
    results. *)
Definition scored_26_of_29 : App :=
  on_state (fun q => set_score 26 (set_questions (replicate 29 paris) q))
           (opened 29 20).

End Sample.

(** ** Settings in range, and the session proper *)

(** [x] is below [lo] or above [hi]: the test [x < lo || x > hi] that
    [validateSettings] makes.  [NaN], which is what [parseInt] makes of a
    field without digits, is on neither side of a bound, so the test does
    not catch it, although it is no number of the range either (see
    [within]). *)
Definition outside (lo hi : Z) (x : jsnum) : Prop :=
  match x with
  | Int z => (z < lo \/ hi < z)%Z
  | NaN => False
  | PosInf | NegInf => True
  end.

Definition out_of_range (s : Settings) : Prop :=
  outside 1 50 (numQuestions s) \/ outside 5 300 (timePerQuestion s).

Global Instance outside_dec lo hi x : Decision (outside lo hi x).
Proof. destruct x; apply _. Defined.

Global Instance out_of_range_dec s : Decision (out_of_range s).
Proof. unfold out_of_range. apply _. Defined.

(** [x] is a number from [lo] to [hi]: a range as the error messages of
    [validateSettings] word it.  A field without digits ([NaN]) is no
    number of the range. *)
Definition within (lo hi : Z) (x : jsnum) : Prop :=
  match x with
  | Int z => (lo <= z <= hi)%Z
  | _ => False
  end.

(** The world [startQuiz] validates: settings read from the form and
    handed to the store. *)
Definition collected (w : App) : App :=
  exec saveSettings (exec collectSettings w).

(** The fields of the state object that belong to the running session:
    all of them but [settings] and [questions]. *)
Definition session_fields (q : QuizState) :=
  (currentQuestionIndex q, score q, streak q, bestStreak q, timeLeft q,
   timer q, startTime q, questionStartTime q, questionTimes q,
   userAnswers q, isAnswered q, isQuizActive q).

(** ** Rounding and the exhaustive checks *)

(** The integer nearest to [a / n], a tie going up. *)
Definition round_div (a n : Z) : Z := ((2 * a + n) / (2 * n))%Z.

Definition sumZ (l : list Z) : Z := foldr Z.add 0%Z l.

(** [f] holds on [count] consecutive integers from [lo] on. *)
Fixpoint all_from (f : Z -> bool) (lo : Z) (count : nat) : bool :=
  match count with
  | O => true
  | S k => f lo && all_from f (lo + 1) k
  end.

(** [Math.round(total / n)] in binary64 is an integer [r] with
    [r - 1/2 <= total / n < r + 1/2]: the nearest one, a tie going up. *)
Definition average_agrees (n total : Z) : bool :=
  match Math_round (PrimFloat.div (float_of_Z total) (float_of_Z n)) with
  | Int r => ((2 * n * r - n <=? 2 * total) && (2 * total <? 2 * n * r + n))%Z
  | _ => false
  end.

(** ... for every total of [n] times of at most 300 seconds each, *)
Definition average_agrees_row (n : Z) : bool :=
  all_from (average_agrees n) 0 (Z.to_nat (300 * n + 1)).

(** As the specification words it: the rounded mean of [timeSpent] over the
    recorded answers, 0 when there are none. *)
Definition averageTimeSeconds_spec (recorded : list AnswerRecord) : jsnum :=
  if (length recorded =? 0)%nat then Int 0
  else
    Math_round
      (PrimFloat.div
         (to_float (foldl js_add (Int 0) (map timeSpent recorded)))
         (float_of_Z (Z.of_nat (length recorded)))).

(** As the specification words it: the first entry of the table whose
    minimum is at most the percentage shown. *)
Definition tier_spec (percentage : Z) : option CONFIG.PerfConfig :=
  snd <$> find (fun kc : string * CONFIG.PerfConfig =>
                  (CONFIG.min kc.2 <=? percentage)%Z)
               CONFIG.PERFORMANCE_MESSAGES.

(** The first entry of the table whose minimum is at most the exact
    quotient [100 * score / total]. *)
Definition tier_exact (score total : Z) : option CONFIG.PerfConfig :=
  snd <$> find (fun kc : string * CONFIG.PerfConfig =>
                  (CONFIG.min kc.2 * total <=? 100 * score)%Z)
               CONFIG.PERFORMANCE_MESSAGES.

(** The percentage [showResults] displays and the entry
    [getPerformanceMessage] returns, for [score] correct answers out of
    [total] questions. *)
Definition shown_percentage (score total : nat) : jsnum :=
  Math_round
    (PrimFloat.mul
       (PrimFloat.div (float_of_Z (Z.of_nat score))
                      (float_of_Z (Z.of_nat total)))
       (float_of_Z 100)).

Definition shown_tier (score total : nat) : CONFIG.PerfConfig :=
  getPerformanceMessage
    (set_score score (set_questions (replicate total Sample.paris) QuizState_new)).

(** What the results screen is checked for, at [score] out of [total]. *)
Definition results_agree (score total : nat) : Prop :=
  ((score, total) <> (23, 40) ->
   shown_percentage score total
   = Int (round_div (100 * Z.of_nat score) (Z.of_nat total)))
  /\ tier_exact (Z.of_nat score) (Z.of_nat total)
     = Some (shown_tier score total)
  /\ (shown_percentage score total = Int 75 ->
      shown_tier score total = CONFIG.GOOD).

Global Instance results_agree_dec score total :
  Decision (results_agree score total).
Proof. unfold results_agree. apply _. Defined.

(** ... for every score of every quiz of 1 to 50 questions. *)
Definition results_agree_in_range : Prop :=
  Forall (fun total => Forall (fun score => results_agree score total)
                              (seq 0 (S total)))
         (seq 1 50).

(** ** Further vocabulary *)

(** The page as it loads, with 10 questions entered and the time field left
    without digits: [parseInt] reads [NaN] from it. *)
Definition blank_time : App :=
  on_document
    (set_form {| numQuestions := Int 10; category := "";
                 difficulty := "medium"; timePerQuestion := NaN |})
    (Sample.opened 10 20).

(** What the counters never exceed: the records never outnumber the
    questions shown, the score the records, the streaks the score. *)
Definition counters_bounded (q : QuizState) : Prop :=
  length (userAnswers q)
    <= currentQuestionIndex q + (if isAnswered q then 1 else 0)
  /\ score q <= length (userAnswers q)
  /\ bestStreak q <= score q
  /\ streak q <= bestStreak q.

(** One round of the quiz: the question is resolved in the way [r], and
    then [nextQuestion] runs (the Next button, or Ctrl+N). *)
Definition round (w : App) (r : Resolution) : App :=
  exec nextQuestion (exec (resolve r) w).

Definition play (w : App) (rs : list Resolution) : App := foldl round w rs.

(** The countdown [timer] points to is the only live one. *)
Definition one_countdown (w : App) : Prop :=
  exists h, timer (state w) = Some h /\ intervals (env w) = {[h]}.

(** No countdown is live and [timer] is [null]. *)
Definition no_countdown (w : App) : Prop :=
  timer (state w) = None /\ intervals (env w) = ∅.

(** The state's [timer] and the browser agree: a resolved question has no
    countdown of its own, and a handle kept in [timer] is a live one. *)
Definition timer_consistent (w : App) : Prop :=
  (isAnswered (state w) = true -> timer (state w) = None)
  /\ (forall h, timer (state w) = Some h -> h ∈ intervals (env w)).

(** ** ApiService *)

(** An exception: [error.name] and [error.message]. *)
Record JsError := {
  err_name : string;
  err_message : string
}.

(** [new Error(message)] *)
Definition Error (message : string) : JsError :=
  {| err_name := "Error"; err_message := message |}.

(** The [TypeError] of a method call on [undefined]; the text is the
    browser's. *)
Definition TypeError_map : JsError :=
  {| err_name := "TypeError";
     err_message := "Cannot read properties of undefined (reading 'map')" |}.

(** A question as the body of the response holds it.  Its three texts are
    taken to be strings; [incorrect_answers] may be missing ([None]: the
    property is absent or no array). *)
Record RawQuestion := {
  raw_question : string;
  raw_category : string;
  raw_correct_answer : string;
  raw_incorrect_answers : option (list string)
}.

(** The object [response.json()] resolves to.  [response_code] is [None]
    when the property is absent (it is a whole number otherwise), and
    [api_results] is [None] when [results] is absent or no array. *)
Record ApiData := {
  response_code : option Z;
  api_results : option (list RawQuestion)
}.

(** What the request comes to: [fetch] rejects (with an [AbortError] when
    the controller aborted it after [CONFIG.API_TIMEOUT], with the
    browser's error when the network failed), or it resolves to a response
    with its [ok] and [status], whose [json()] rejects or resolves. *)
Inductive Fetched :=
  | FetchRejected (error : JsError)
  | Response (ok : bool) (status : nat) (json : JsError + ApiData).

(** [errorMessages[responseCode] || 'An unknown error occurred.'] *)
Definition getApiErrorMessage (responseCode : option Z) : string :=
  match responseCode with
  | Some 1%Z => "No results found. Try different settings."
  | Some 2%Z => "Invalid parameters. Please check your settings."
  | Some 3%Z => "Token not found."
  | Some 4%Z => "Token empty."
  | Some 5%Z => "Rate limit exceeded. Please wait a moment and try again."
  | _ => "An unknown error occurred."
  end.

Section fetchQuestions.

(** [Utils.decodeHtml], which the browser's parser computes. *)
Variable decodeHtml : string -> string.

(** The function [fetchQuestions] maps over [data.results]: it raises when
    [question.incorrect_answers] has no [map]. *)
Definition decode_question (raw : RawQuestion) : JsError + Question :=
  match raw_incorrect_answers raw with
  | Some answers =>
      inr {| question := decodeHtml (raw_question raw);
             q_category := raw_category raw;
             correct_answer := decodeHtml (raw_correct_answer raw);
             incorrect_answers := decodeHtml <$> answers |}
  | None => inl TypeError_map
  end.

(** [results.map(question => ...)]: the first exception ends it. *)
Fixpoint decode_all (l : list RawQuestion) : JsError + list Question :=
  match l with
  | [] => inr []
  | raw :: l' =>
      match decode_question raw with
      | inl error => inl error
      | inr qn =>
          match decode_all l' with
          | inl error => inl error
          | inr qs => inr (qn :: qs)
          end
      end
  end.

(** The [try] block of [fetchQuestions]: the error thrown in it, or the
    value returned. *)
Definition fetchQuestions_try (r : Fetched) : JsError + list Question :=
  match r with
  | FetchRejected error => inl error
  | Response ok status json =>
      if negb ok then inl (Error ("HTTP error! status: " +:+ pretty status))
      else
        match json with
        | inl error => inl error
        | inr data =>
            if negb (bool_decide (response_code data = Some 0%Z))
            then inl (Error (getApiErrorMessage (response_code data)))
            else
              match api_results data with
              | Some results => decode_all results
              | None => inl TypeError_map
              end
        end
  end.

(** [ApiService.fetchQuestions], as the promise it returns settles. *)
Definition fetchQuestions (r : Fetched) : FetchOutcome :=
  match fetchQuestions_try r with
  | inr questions => Resolved questions
  | inl error =>
      if String.eqb (err_name error) "AbortError"
      then Rejected "Request timed out. Please check your internet connection and try again."
      else Rejected (err_message error)
  end.

End fetchQuestions.

(** ** A quiz left alone *)

(** The record of a question that timed out with nothing selected. *)
Definition unanswered_record (T : jsnum) (qn : Question) : AnswerRecord :=
  {| a_question := question qn;
     userAnswer := None;
     correctAnswer := correct_answer qn;
     isCorrect := false;
     timeSpent := T |}.

(** The user does nothing: the countdown of the question ticks until it
    runs out, and then the delayed callback of [handleTimeUp] fires (the
    handle it gets is the next one the browser gives out). *)
Definition idle_round (w : App) : App :=
  match timer (state w), timeLeft (state w) with
  | Some h, Int t =>
      step (run w (replicate (Z.to_nat t) (IntervalFired h)))
           (TimeoutFired (nextHandle (env w)))
  | _, _ => w
  end.

Fixpoint idle (rounds : nat) (w : App) : App :=
  match rounds with
  | O => w
  | S k => idle k (idle_round w)
  end.

(** * Theorems *)

(** ** Running the monad *)

Arguments shuffle_new : simpl never.
Arguments Math_round : simpl never.
Arguments float_of_Z : simpl never.
Arguments getAverageTime : simpl never.
Arguments getPerformanceMessage : simpl never.

(** Reduces the record projections over the setters, and nothing else. *)
Ltac fields :=
  cbn [
    questions currentQuestionIndex score streak bestStreak timeLeft timer
    startTime questionStartTime questionTimes userAnswers settings
    isAnswered isQuizActive screen answers selected errorModal
    loadingOverlay form buttons results review intervals timeouts
    nextHandle fetches localStorage storageThrows now random randomCalls
    state document env submitHidden submitDisabled nextHidden skipHidden
    numQuestions category difficulty timePerQuestion saved_settings
    timestamp set_questions set_currentQuestionIndex set_score set_streak
    set_bestStreak set_timeLeft set_timer set_startTime
    set_questionStartTime set_questionTimes set_userAnswers set_settings
    set_isAnswered set_isQuizActive set_screen set_answers set_selected
    set_errorModal set_loadingOverlay set_form set_buttons set_results
    set_review set_intervals set_timeouts set_nextHandle set_fetches
    set_localStorage set_randomCalls set_now on_state on_document on_env fst snd
    negb andb orb
  ] in *.

Ltac run_M :=
  repeat progress
    (unfold defined, exec, try_catch, bind, ret, get, modify, throw in *;
     fields).

Lemma exec_bind {A B} (m : M A) (k : A -> M B) (w : App) :
  exec (bind m k) w =
  match m w with
  | (Returned a, w') => exec (k a) w'
  | (Thrown _, w') => w'
  end.
Proof. unfold exec, bind. by destruct (m w) as [[a|e] w']. Qed.

Lemma clearTimer_spec (w : App) :
  clearTimer w =
  (Returned tt,
   match timer (state w) with
   | Some h =>
       on_state (set_timer None)
         (on_env (fun e => set_intervals (intervals e ∖ {[h]}) e) w)
   | None => w
   end).
Proof. unfold clearTimer, clearInterval. run_M. by destruct (timer (state w)). Qed.

Lemma clearTimer_cleared (w : App) : clearTimer w = (Returned tt, cleared w).
Proof. unfold cleared. by rewrite clearTimer_spec. Qed.

Lemma state_cleared (w : App) : state (cleared w) = set_timer None (state w).
Proof.
  unfold cleared. rewrite clearTimer_spec. cbn.
  destruct w as [q d e]; destruct q as [? ? ? ? ? ? [h|] ? ? ? ? ? ? ?]; reflexivity.
Qed.

Lemma document_cleared (w : App) : document (cleared w) = document w.
Proof. unfold cleared. rewrite clearTimer_spec. cbn. by destruct (timer (state w)). Qed.

(** ** Resolving a question *)

(** Destructs the world down to its fields, so that the projections of the
    setters compute. *)
Ltac open_world w :=
  let q := fresh "q" in
  let d := fresh "d" in
  let e := fresh "e" in
  destruct w as [q d e]; destruct q; fields.

Lemma resolve_answered (w : App) (r : Resolution) :
  isAnswered (state w) = true -> resolve r w = (Returned tt, w).
Proof.
  intros H. destruct r; cbn [resolve];
    unfold submitAnswer, handleTimeUp, skipQuestion; run_M; by rewrite H.
Qed.

Lemma resolve_all_answered (w : App) (rs : list Resolution) :
  isAnswered (state w) = true -> resolve_all w rs = w.
Proof.
  intros H. induction rs as [|r rs IH]; [done|].
  cbn. unfold exec. by rewrite resolve_answered.
Qed.

(** Unfolds the methods down to the monad; [crush] then runs them by cases. *)
Ltac unfold_methods :=
  unfold step, window_onerror, dispatch, handleKeyboard, click_answer, handleQuitQuiz,
    handleSubmitAnswer, handleNextQuestion, handleSkipQuestion,
    startQuiz, startQuiz_settle, startQuiz_request, quitQuiz, restartQuiz,
    showReview, timeout_callback, interval_callback, handleTimeUp,
    skipQuestion, nextQuestion, submitAnswer, push_userAnswer, selectAnswer,
    showQuestion, generateAnswers, startTimer, endQuiz, showResults,
    updateButtonStates, validateSettings, collectSettings, saveSettings,
    selectedAnswer, switchScreen, hideError, showError, hideLoading,
    showLoading, saveToStorage, recordQuestionTime, resetStreak,
    incrementScore, reset, clearTimer, Date_now, setTimeout, clearInterval,
    setInterval in *.

Ltac crush :=
  unfold_methods; run_M;
  repeat (case_match; simplify_eq; fields);
  try congruence; try done; eauto.

Lemma resolve_unanswered (w : App) (r : Resolution) (qn : Question) :
  isAnswered (state w) = false ->
  currentQuestion (state w) = Some qn ->
  isAnswered (state (exec (resolve r) w)) = true
  /\ exists a, userAnswers (state (exec (resolve r) w))
               = userAnswers (state w) ++ [a].
Proof.
  intros Hun Hq. unfold currentQuestion in Hq.
  open_world w. subst. destruct r; cbn [resolve]; crush.
Qed.

(** C1. Once [isAnswered] is true, [submitAnswer], [handleTimeUp] and
    [skipQuestion] return at once and leave the whole world as it is, in
    particular [userAnswers], [score] and [streak].  From an unanswered
    question, the first of any series of such calls appends exactly one
    record and the rest of the series adds none. *)
Theorem resolution_is_idempotent (w : App) (r : Resolution) :
  (isAnswered (state w) = true -> resolve r w = (Returned tt, w))
  /\ (isAnswered (state w) = false ->
      is_Some (currentQuestion (state w)) ->
      exists a, forall rs,
        userAnswers (state (resolve_all w (r :: rs)))
        = userAnswers (state w) ++ [a]).
Proof.
  split; [apply resolve_answered|].
  intros Hun [qn Hq].
  destruct (resolve_unanswered w r qn Hun Hq) as [Hans [a Ha]].
  exists a. intros rs. cbn [resolve_all foldl].
  fold (resolve_all (exec (resolve r) w) rs).
  by rewrite resolve_all_answered.
Qed.

(** ** Score and streaks *)

Ltac solve_tally :=
  first [ by apply tally_same
        | by eapply tally_incorrect
        | by eapply tally_correct
        | by apply tally_streak_lost ].

Lemma step_in_session (w : App) (ev : Event) :
  new_session w ev = false -> tally_step (state w) (state (step w ev)).
Proof.
  intros Hns. unfold step. open_world w.
  destruct ev as [ | [[|qn qs]|err] | | | | | [|] | | | | | ctrl key | h | h | t ];
    try discriminate Hns.
  all: cbn in Hns; try discriminate Hns.
  all: try (destruct (fetches e) eqn:Hf; [|discriminate Hns]).
  all: try (destruct key; destruct ctrl).
  all: crush; cbn; solve_tally.
Qed.

Lemma step_new_session (w : App) (ev : Event) :
  new_session w ev = true ->
  userAnswers (state (step w ev)) = []
  /\ score (state (step w ev)) = 0
  /\ streak (state (step w ev)) = 0
  /\ bestStreak (state (step w ev)) = 0.
Proof.
  intros Hns. unfold step. open_world w.
  destruct ev as [ | [[|qn qs]|err] | | | | | [|] | | | | | ctrl key | h | h | t ];
    cbn in Hns; try discriminate Hns.
  all: try (destruct (fetches e) eqn:Hf; [discriminate Hns|]).
  all: crush; cbn; done.
Qed.

Lemma count_correct_app (l : list AnswerRecord) (a : AnswerRecord) :
  count_correct (l ++ [a]) = count_correct l + (if isCorrect a then 1 else 0).
Proof. induction l as [|b l IH]; cbn; [lia|]. rewrite IH. lia. Qed.

Lemma reachable_session_best (w : App) :
  reachable w <-> exists m, session_best w m.
Proof.
  split.
  - induction 1 as [d e | w ev _ [m IH]].
    + exists 0. constructor.
    + destruct (new_session w ev) eqn:Hns; eexists.
      * by eapply session_best_begin.
      * by eapply session_best_step.
  - intros [m H]. induction H; by constructor.
Qed.

Lemma session_best_invariant (w : App) (m : nat) :
  session_best w m ->
  score (state w) = count_correct (userAnswers (state w))
  /\ bestStreak (state w) = m
  /\ streak (state w) <= bestStreak (state w).
Proof.
  induction 1 as [d e | w m ev _ _ Hns | w m ev _ (Hs & Hb & Hle) Hns].
  - unfold QuizApp_new. by destruct (localStorage e).
  - destruct (step_new_session w ev Hns) as (-> & -> & -> & ->). done.
  - destruct (step_in_session w ev Hns) as
      [Ha Hsc Hst Hbs | a Ha Hc Hsc Hst Hbs | a Ha Hc Hsc Hst Hbs | Ha Hsc Hst Hbs];
      rewrite Ha, Hsc, Hst, Hbs, ?count_correct_app, ?Hc; lia.
Qed.

Lemma app_singleton_neq {A} (l : list A) (a : A) : l <> l ++ [a].
Proof.
  intros H. apply (f_equal length) in H. rewrite length_app in H. cbn in H. lia.
Qed.

Lemma resolve_tally (w : App) (r : Resolution) (qn : Question) :
  isAnswered (state w) = false ->
  currentQuestion (state w) = Some qn ->
  let w' := exec (resolve r) w in
  let answer :=
    match r with
    | BySkip => Some "Skipped"
    | _ => selectedAnswer (document w)
    end in
  let correct :=
    match r with
    | BySkip => false
    | _ => bool_decide (selectedAnswer (document w) = Some (correct_answer qn))
    end in
  exists a,
    userAnswers (state w') = userAnswers (state w) ++ [a]
    /\ userAnswer a = answer
    /\ isCorrect a = correct
    /\ streak (state w') = (if correct then S (streak (state w)) else 0)
    /\ score (state w')
       = (if correct then S (score (state w)) else score (state w))
    /\ bestStreak (state w')
       = (if correct then Nat.max (bestStreak (state w)) (S (streak (state w)))
          else bestStreak (state w)).
Proof.
  unfold currentQuestion. intros Hun Hq.
  destruct w as [[qs0 idx sc st bs tl tm stt qst qts uas stg ans act] d e].
  fields. subst. cbn zeta.
  unfold resolve, handleTimeUp, submitAnswer, skipQuestion, clearTimer,
    clearInterval, recordQuestionTime, push_userAnswer, incrementScore,
    resetStreak, updateButtonStates, setTimeout, Math_max.
  destruct r.
  - destruct (selectedAnswer d) as [answer|] eqn:Hsel.
    + destruct (decide (answer = correct_answer qn)) as [Hc|Hc].
      * rewrite (bool_decide_true (Some _ = Some _)) by congruence.
        destruct tm, (truthy qst) eqn:Htr;
          repeat progress (run_M; rewrite ?Htr, ?Hsel, ?Hq,
                             ?(bool_decide_true _ Hc));
          eexists; split_and!; reflexivity.
      * rewrite (bool_decide_false (Some _ = Some _)) by congruence.
        destruct tm, (truthy qst) eqn:Htr;
          repeat progress (run_M; rewrite ?Htr, ?Hsel, ?Hq,
                             ?(bool_decide_false _ Hc));
          eexists; split_and!; reflexivity.
    + rewrite (bool_decide_false (None = Some _)) by done.
      destruct tm, (truthy qst) eqn:Htr;
        repeat progress (run_M; rewrite ?Htr, ?Hsel, ?Hq);
        eexists; split_and!; reflexivity.
  - destruct (selectedAnswer d) as [answer|] eqn:Hsel.
    + destruct (decide (answer = correct_answer qn)) as [Hc|Hc].
      * rewrite (bool_decide_true (Some _ = Some _)) by congruence.
        destruct tm, (truthy qst) eqn:Htr;
          repeat progress (run_M; rewrite ?Htr, ?Hsel, ?Hq,
                             ?(bool_decide_true _ Hc));
          eexists; split_and!; reflexivity.
      * rewrite (bool_decide_false (Some _ = Some _)) by congruence.
        destruct tm, (truthy qst) eqn:Htr;
          repeat progress (run_M; rewrite ?Htr, ?Hsel, ?Hq,
                             ?(bool_decide_false _ Hc));
          eexists; split_and!; reflexivity.
    + rewrite (bool_decide_false (None = Some _)) by done.
      destruct tm, (truthy qst) eqn:Htr;
        repeat progress (run_M; rewrite ?Htr, ?Hsel, ?Hq);
        eexists; split_and!; reflexivity.
  - destruct tm; repeat progress (run_M; rewrite ?Hq);
      eexists; split_and!; reflexivity.
Qed.

(** C2. In every world the page can reach, [score] is the number of
    recorded answers with [isCorrect]; [bestStreak] is the largest [streak]
    seen since the session began, and no event of the session lowers it; an
    event that records an answer adds one to [streak] (and to [score]) when
    the answer is correct and sets [streak] to 0 when it is not.  Resolving
    an unanswered question records exactly one answer: a skip records an
    incorrect one, a submit or a timeout records the answer selected,
    correct exactly when it is the correct answer (so incorrect when none
    is selected).  The counters follow: when correct, [streak] and [score]
    grow by one and [bestStreak] is the larger of its value and the new
    streak; otherwise [streak] is 0 and the other two keep their values. *)
Theorem score_streak_bestStreak (w : App) (m : nat) (ev : Event) :
  session_best w m ->
  score (state w) = count_correct (userAnswers (state w))
  /\ bestStreak (state w) = m
  /\ (new_session w ev = false ->
      bestStreak (state w) <= bestStreak (state (step w ev)))
  /\ (forall a,
        userAnswers (state (step w ev)) = userAnswers (state w) ++ [a] ->
        if isCorrect a
        then streak (state (step w ev)) = S (streak (state w))
             /\ score (state (step w ev)) = S (score (state w))
        else streak (state (step w ev)) = 0
             /\ score (state (step w ev)) = score (state w))
  /\ (forall r qn,
        isAnswered (state w) = false ->
        currentQuestion (state w) = Some qn ->
        let w' := exec (resolve r) w in
        let correct :=
          match r with
          | BySkip => false
          | _ => bool_decide
                   (selectedAnswer (document w) = Some (correct_answer qn))
          end in
        exists a,
          userAnswers (state w') = userAnswers (state w) ++ [a]
          /\ isCorrect a = correct
          /\ streak (state w') = (if correct then S (streak (state w)) else 0)
          /\ score (state w')
             = (if correct then S (score (state w)) else score (state w))
          /\ bestStreak (state w')
             = (if correct
                then Nat.max (bestStreak (state w)) (S (streak (state w)))
                else bestStreak (state w))).
Proof.
  intros H. destruct (session_best_invariant w m H) as (Hs & Hb & Hle).
  split; [done|]. split; [done|]. split; [|split].
  - intros Hns.
    destruct (step_in_session w ev Hns) as
      [_ _ _ -> | a _ _ _ _ -> | a _ _ _ _ -> | _ _ _ ->]; lia.
  - intros a Ha. destruct (new_session w ev) eqn:Hns.
    + destruct (step_new_session w ev Hns) as (Hnil & _).
      rewrite Hnil in Ha. by destruct (userAnswers (state w)).
    + destruct (step_in_session w ev Hns) as
        [Ha' _ _ _ | b Ha' Hc Hsc Hst _ | b Ha' Hc Hsc Hst _ | Ha' _ _ _];
        rewrite Ha' in Ha.
      * by apply app_singleton_neq in Ha.
      * apply app_inv_head in Ha. injection Ha as <-. by rewrite Hc.
      * apply app_inv_head in Ha. injection Ha as <-. by rewrite Hc.
      * by apply app_singleton_neq in Ha.
  - intros r qn Hun Hq.
    destruct (resolve_tally w r qn Hun Hq) as (a & Ha & _ & Hc & Hrest).
    by exists a.
Qed.

Lemma resolution_is_idempotent_witness :
  isAnswered (state Sample.timed_out) = true
  /\ resolve BySkip Sample.timed_out = (Returned tt, Sample.timed_out)
  /\ isAnswered (state (Sample.started 1 20 [Sample.paris])) = false
  /\ is_Some (currentQuestion (state (Sample.started 1 20 [Sample.paris])))
  /\ exists a, forall rs,
       userAnswers
         (state (resolve_all (Sample.started 1 20 [Sample.paris])
                             (ByTimeout :: rs)))
       = userAnswers (state (Sample.started 1 20 [Sample.paris])) ++ [a].
Proof.
  assert (isAnswered (state Sample.timed_out) = true) as H1
    by (vm_compute; reflexivity).
  assert (isAnswered (state (Sample.started 1 20 [Sample.paris])) = false)
    as H2 by (vm_compute; reflexivity).
  assert (is_Some (currentQuestion (state (Sample.started 1 20 [Sample.paris]))))
    as H3 by (vm_compute; eexists; reflexivity).
  split; [exact H1|]. split.
  - exact (proj1 (resolution_is_idempotent Sample.timed_out BySkip) H1).
  - split; [exact H2|]. split; [exact H3|].
    exact (proj2 (resolution_is_idempotent
                    (Sample.started 1 20 [Sample.paris]) ByTimeout) H2 H3).
Defined.

Lemma score_streak_bestStreak_witness :
  session_best (step (Sample.started 1 20 [Sample.paris]) (AnswerClicked 0)) 0
  /\ score (state (step (Sample.started 1 20 [Sample.paris]) (AnswerClicked 0)))
     = 0
  /\ streak
       (state (step (step (Sample.started 1 20 [Sample.paris]) (AnswerClicked 0))
                    SubmitClicked))
     = 1
  /\ score
       (state (step (step (Sample.started 1 20 [Sample.paris]) (AnswerClicked 0))
                    SubmitClicked))
     = 1
  /\ streak
       (state (exec skipQuestion
                    (step (Sample.started 1 20 [Sample.paris]) (AnswerClicked 0))))
     = 0.
Proof.
  assert (session_best
            (step (Sample.started 1 20 [Sample.paris]) (AnswerClicked 0)) 0)
    as H.
  { unfold Sample.started, run. cbn [foldl].
    refine (session_best_step _ 0 (AnswerClicked 0) _ _); [|reflexivity].
    refine (session_best_begin _ 0 (FetchSettled _) _ _);
      [|vm_compute; reflexivity].
    refine (session_best_step _ 0 StartClicked _ _); [|reflexivity].
    apply session_best_new. }
  split; [exact H|].
  destruct (score_streak_bestStreak _ 0 SubmitClicked H)
    as (Hs & _ & _ & Ha & Hr).
  split; [exact Hs|].
  destruct (Hr BySkip Sample.paris eq_refl eq_refl) as (a & _ & _ & Hst & _).
  destruct (Ha {| a_question := question Sample.paris;
                  userAnswer := Some "Paris";
                  correctAnswer := "Paris";
                  isCorrect := true;
                  timeSpent := Int 0 |} eq_refl) as [H1 H2].
  split; [exact H1|]. split; [exact H2|exact Hst].
Defined.

(** ** The countdown *)

(** Every method that resolves or abandons a question clears the running
    countdown: afterwards [timer] is [null] and its handle is not live. *)
Lemma clearTimer_clears (w : App) (h : handle) :
  timer (state w) = Some h ->
  timer (state (cleared w)) = None /\ h ∉ intervals (env (cleared w)).
Proof.
  intros H. unfold cleared. rewrite clearTimer_spec, H. cbn.
  split; [by destruct w as [[] ? ?]|].
  intros [_ Hn]%elem_of_difference. by apply Hn, elem_of_singleton.
Qed.

(** Submit, skip and quit leave no countdown running. *)
Lemma leaving_clears_timer (w : App) (h : handle) :
  timer (state w) = Some h ->
  (isAnswered (state w) = false ->
   timer (state (exec submitAnswer w)) = None
   /\ h ∉ intervals (env (exec submitAnswer w)))
  /\ (isAnswered (state w) = false ->
      timer (state (exec skipQuestion w)) = None
      /\ h ∉ intervals (env (exec skipQuestion w)))
  /\ timer (state (exec quitQuiz w)) = None
  /\ h ∉ intervals (env (exec quitQuiz w)).
Proof.
  intros Ht.
  assert (h ∉ intervals (env w) ∖ {[h]}) as Hn.
  { intros [_ Hn]%elem_of_difference. by apply Hn, elem_of_singleton. }
  open_world w. subst.
  split; [intros ->|split; [intros ->|]]; crush.
Qed.

(** [startTimer] registers a new interval and clears none: the live
    intervals grow by one whatever [timer] held. *)
Lemma startTimer_adds (w : App) :
  intervals (env (exec startTimer w))
  = {[nextHandle (env w)]} ∪ intervals (env w).
Proof. open_world w. crush. Qed.

(** C3, on the trace that breaks it.  Three questions at five seconds each.
    The countdown of the first question runs out ([handleTimeUp] clears it
    and schedules the delayed advance); the Next button is now visible and
    the user clicks it; then the delayed callback fires.  The page is on
    the third question with one answer recorded, and two countdowns are
    live: the one of the second question (handle 3), which nothing cleared,
    and the one of the third (handle 4).  The next tick of the stale one
    takes a second off the third question. *)
Theorem leaked_countdown :
  nextHidden (buttons (document Sample.timed_out)) = false
  /\ elements (timeouts (env Sample.timed_out)) = [2%positive]
  /\ elements (intervals (env Sample.advanced_twice)) = [3%positive; 4%positive]
  /\ timer (state Sample.advanced_twice) = Some 4%positive
  /\ currentQuestionIndex (state Sample.advanced_twice) = 2
  /\ length (userAnswers (state Sample.advanced_twice)) = 1
  /\ timeLeft (state Sample.advanced_twice) = Int 5
  /\ timeLeft (state (step Sample.advanced_twice (IntervalFired 3%positive)))
     = Int 4.
Proof. vm_compute. repeat split; reflexivity. Qed.

(** ** Advancing *)

(** The test of [isAnswered] is made by a caller: Ctrl+N does nothing at
    all while the question is unanswered.  With [isAnswered] true,
    [nextQuestion] shows question [currentQuestionIndex + 1], unanswered,
    with a full countdown and the Next button hidden again; or, when that
    index is not below the number of questions, ends the quiz: inactive,
    no timer, results on screen. *)
Lemma advance_gated_by_caller (w : App) :
  (isAnswered (state w) = false ->
   handleKeyboard true KeyN w = (Returned tt, w))
  /\ (isAnswered (state w) = true ->
      if (currentQuestionIndex (state w) + 1 <? length (questions (state w)))%nat
      then
        currentQuestionIndex (state (exec nextQuestion w))
        = currentQuestionIndex (state w) + 1
        /\ isAnswered (state (exec nextQuestion w)) = false
        /\ timeLeft (state (exec nextQuestion w))
           = timePerQuestion (settings (state w))
        /\ isQuizActive (state (exec nextQuestion w)) = isQuizActive (state w)
        /\ screen (document (exec nextQuestion w)) = screen (document w)
        /\ nextHidden (buttons (document (exec nextQuestion w))) = true
      else
        isQuizActive (state (exec nextQuestion w)) = false
        /\ timer (state (exec nextQuestion w)) = None
        /\ screen (document (exec nextQuestion w)) = EndScreen
        /\ is_Some (results (document (exec nextQuestion w)))).
Proof.
  split.
  - intros H. open_world w. subst. crush.
  - intros _. open_world w.
    destruct (currentQuestionIndex0 + 1 <? length questions0)%nat eqn:Hlt.
    + pose proof (proj1 (Nat.ltb_lt _ _) Hlt) as Hlt'.
      destruct (lookup_lt_is_Some_2 questions0 (currentQuestionIndex0 + 1) Hlt')
        as [qn Hqn].
      assert ((length questions0 <=? currentQuestionIndex0 + 1)%nat = false)
        as Hle by (apply Nat.leb_gt; lia).
      crush.
    + crush.
Qed.

(** C4, on the trace that breaks it.  Three questions at five seconds
    each.  The first one times out and the user clicks Next within the
    two seconds of the delay: question 2 is on screen, unanswered, and the
    delayed advance of [handleTimeUp] (handle 2) is still pending.  Ctrl+N
    does nothing there, as its guard asks; the delayed callback calls
    [nextQuestion] with no test of [isAnswered]: the page moves to the
    third question, unanswered, and the only record is that of the
    first. *)
Theorem advance_without_answer :
  let w := step Sample.timed_out NextClicked in
  isAnswered (state w) = false
  /\ currentQuestionIndex (state w) = 1
  /\ elements (timeouts (env w)) = [2%positive]
  /\ handleKeyboard true KeyN w = (Returned tt, w)
  /\ currentQuestionIndex (state (step w (TimeoutFired 2%positive))) = 2
  /\ isAnswered (state (step w (TimeoutFired 2%positive))) = false
  /\ a_question <$> userAnswers (state (step w (TimeoutFired 2%positive)))
     = [question Sample.paris].
Proof.
  cbn zeta.
  assert (isAnswered (state (step Sample.timed_out NextClicked)) = false) as H
    by (by vm_compute).
  split; [exact H|]. split; [by vm_compute|]. split; [by vm_compute|].
  split; [exact (proj1 (advance_gated_by_caller _) H)|].
  vm_compute. repeat split; reflexivity.
Qed.

(** ** Time spent *)

(** What [submitAnswer] records as [timeSpent]: the elapsed time when an
    answer is selected, the whole [timePerQuestion] when none is. *)
Lemma submitAnswer_timeSpent (w : App) (qn : Question) :
  isAnswered (state w) = false ->
  currentQuestion (state w) = Some qn ->
  exists a,
    userAnswers (state (exec submitAnswer w)) = userAnswers (state w) ++ [a]
    /\ userAnswer a = selectedAnswer (document w)
    /\ timeSpent a =
         match selectedAnswer (document w) with
         | Some _ => js_sub (timePerQuestion (settings (state w)))
                            (timeLeft (state w))
         | None => timePerQuestion (settings (state w))
         end.
Proof.
  intros Hun Hq. unfold currentQuestion in Hq. open_world w. subst.
  crush; eexists; (split; [reflexivity|]); cbn; by rewrite ?H, ?H0, ?H1, ?H2.
Qed.

(** C6, at the input that breaks it.  One question at twenty seconds; after
    eight ticks twelve seconds are left and nothing is selected.  Ctrl+Enter
    submits: the record says 20 seconds were spent, while [questionTimes],
    filled by the same call, says 8. *)
Theorem empty_submit_records_full_time :
  isQuizActive (state Sample.eight_seconds_in) = true
  /\ isAnswered (state Sample.eight_seconds_in) = false
  /\ selectedAnswer (document Sample.eight_seconds_in) = None
  /\ timePerQuestion (settings (state Sample.eight_seconds_in)) = Int 20
  /\ timeLeft (state Sample.eight_seconds_in) = Int 12
  /\ userAnswers (state Sample.submitted_empty)
     = [ {| a_question := "What is the capital of France?";
            userAnswer := None;
            correctAnswer := "Paris";
            isCorrect := false;
            timeSpent := Int 20 |} ]
  /\ questionTimes (state Sample.submitted_empty) = [Int 8].
Proof. vm_compute. repeat split; reflexivity. Qed.

(** ** Validation and failed starts *)

Lemma outside_spec (lo hi : Z) (x : jsnum) :
  js_lt x (Int lo) || js_gt x (Int hi) = true <-> outside lo hi x.
Proof.
  destruct x as [z| | |]; cbn; rewrite ?orb_true_iff, ?Z.ltb_lt;
    intuition discriminate.
Qed.

Lemma not_outside_spec (lo hi : Z) (x : jsnum) :
  js_lt x (Int lo) || js_gt x (Int hi) = false <-> ~ outside lo hi x.
Proof. rewrite <- outside_spec. by destruct (_ || _). Qed.

Lemma validateSettings_spec (w : App) :
  (exists msg,
     validateSettings w
     = (Returned false,
        on_document (set_errorModal (Some ("Invalid Settings", msg))) w)
     /\ out_of_range (settings (state w)))
  \/ (validateSettings w = (Returned true, w)
      /\ ~ out_of_range (settings (state w))).
Proof.
  unfold validateSettings, showError, out_of_range. run_M.
  destruct (js_lt (numQuestions _) _ || js_gt (numQuestions _) _) eqn:Hn.
  { left. eexists. split; [reflexivity|]. left. by apply outside_spec. }
  destruct (js_lt (timePerQuestion _) _ || js_gt (timePerQuestion _) _) eqn:Ht.
  { left. eexists. split; [reflexivity|]. right. by apply outside_spec. }
  right. split; [reflexivity|].
  apply not_outside_spec in Hn, Ht. tauto.
Qed.

Lemma bind_returned {A B} (m : M A) (k : A -> M B) (w w' : App) (a : A) :
  m w = (Returned a, w') -> bind m k w = k a w'.
Proof. intros H. unfold bind. by rewrite H. Qed.

Lemma collectSettings_returns (w : App) :
  collectSettings w = (Returned tt, exec collectSettings w).
Proof. by crush. Qed.

Lemma saveSettings_returns (w : App) :
  saveSettings w = (Returned tt, exec saveSettings w).
Proof. by crush. Qed.

Lemma collected_spec (w : App) :
  settings (state (collected w)) = form (document w)
  /\ session_fields (state (collected w)) = session_fields (state w)
  /\ questions (state (collected w)) = questions (state w)
  /\ document (collected w) = document w
  /\ fetches (env (collected w)) = fetches (env w)
  /\ storageThrows (env (collected w)) = storageThrows (env w)
  /\ localStorage (env (collected w))
     = if storageThrows (env w) then localStorage (env w)
       else Some {| saved_settings := form (document w);
                    timestamp := now (env w) |}.
Proof.
  unfold collected. open_world w. destruct d as [? ? ? ? ? [] ? ? ?].
  crush; repeat split; by destruct e.
Qed.

Lemma startQuiz_request_spec (w : App) :
  (exists msg,
     startQuiz_request w
     = (Returned false,
        on_document (set_errorModal (Some ("Invalid Settings", msg)))
                    (collected w))
     /\ out_of_range (form (document w)))
  \/ (startQuiz_request w
      = (Returned true,
         on_env (fun e => set_fetches (S (fetches e)) e)
                (on_document (set_loadingOverlay true) (collected w)))
      /\ ~ out_of_range (form (document w))).
Proof.
  destruct (collected_spec w) as (Hset & _).
  unfold startQuiz_request.
  rewrite (bind_returned _ _ _ _ _ (collectSettings_returns w)).
  rewrite (bind_returned _ _ _ _ _ (saveSettings_returns _)).
  fold (collected w). rewrite <- Hset.
  destruct (validateSettings_spec (collected w)) as [(msg & Hv & Hr)|[Hv Hr]];
    rewrite (bind_returned _ _ _ _ _ Hv); cbn [negb].
  - left. by exists msg.
  - right. split; [|done]. unfold showLoading. by run_M.
Qed.

Lemma not_outside_within (lo hi : Z) (x : jsnum) :
  ~ outside lo hi x <-> within lo hi x \/ x = NaN.
Proof.
  destruct x as [z| | |]; cbn.
  - split; [intros ?; left; lia|intros [?|[=]]; lia].
  - split; [by right|tauto].
  - split; [tauto|by intros [[]|[=]]].
  - split; [tauto|by intros [[]|[=]]].
Qed.

(** With whole numbers in both fields the refusal is the one the messages
    announce, and the settings entered are kept in the state and handed to
    the store before they are validated. *)
Lemma validation_of_whole_numbers (w : App) (n t : Z) :
  numQuestions (form (document w)) = Int n ->
  timePerQuestion (form (document w)) = Int t ->
  ((startQuiz_request w).1 = Returned false
   <-> ~ (1 <= n <= 50 /\ 5 <= t <= 300)%Z)
  /\ ((startQuiz_request w).1 = Returned true
      <-> (1 <= n <= 50 /\ 5 <= t <= 300)%Z)
  /\ settings (state (exec startQuiz_request w)) = form (document w)
  /\ (storageThrows (env w) = false ->
      localStorage (env (exec startQuiz_request w))
      = Some {| saved_settings := form (document w);
                timestamp := now (env w) |}).
Proof.
  intros Hn Ht.
  assert (out_of_range (form (document w))
          <-> ~ (1 <= n <= 50 /\ 5 <= t <= 300)%Z) as Hr.
  { unfold out_of_range. rewrite Hn, Ht. cbn [outside]. lia. }
  assert (~ out_of_range (form (document w))
          <-> (1 <= n <= 50 /\ 5 <= t <= 300)%Z) as Hr'.
  { unfold out_of_range. rewrite Hn, Ht. cbn [outside]. lia. }
  destruct (collected_spec w) as (Hset & _ & _ & _ & _ & _ & Hls).
  unfold exec.
  destruct (startQuiz_request_spec w) as [(msg & -> & Ho)|[-> Ho]];
    cbn [fst snd]; fields.
  - split; [split; [tauto|done]|]. split; [split; [done|tauto]|].
    split; [done|]. intros Hs. by rewrite Hls, Hs.
  - split; [split; [done|tauto]|]. split; [split; [tauto|done]|].
    split; [done|]. intros Hs.
    destruct (collected w) as [q d e]; destruct e; cbn in *. by rewrite Hls, Hs.
Qed.

(** C9, at the input that breaks it.  Ten questions are entered and the
    time field holds no digits, so [parseInt] gives [NaN]: the time is not
    a number from 5 to 300.  [validateSettings] lets it through ([NaN < 5]
    and [NaN > 300] are both false): no range error is shown and the
    request is sent.  When the questions arrive the quiz starts with
    [timeLeft] at [NaN], and 301 ticks later (more than the longest time
    the range allows) the question is still unanswered. *)
Theorem blank_time_passes_validation :
  let w := step blank_time StartClicked in
  let w' := step w (FetchSettled (Resolved [Sample.paris])) in
  within 1 50 (numQuestions (form (document blank_time)))
  /\ ~ within 5 300 (timePerQuestion (form (document blank_time)))
  /\ (startQuiz_request blank_time).1 = Returned true
  /\ errorModal (document w) = None
  /\ fetches (env w) = 1
  /\ isQuizActive (state w') = true
  /\ timeLeft (state w') = NaN
  /\ isAnswered (state (run w' (replicate 301 (IntervalFired 1%positive))))
     = false.
Proof.
  cbn zeta. split; [cbn; lia|]. split; [cbn; tauto|].
  vm_compute. repeat split; reflexivity.
Qed.

Lemma startQuiz_settle_failed (w : App) (o : FetchOutcome) :
  o = Resolved [] \/ (exists err, o = Rejected err) ->
  exists msg,
    exec (startQuiz_settle o) w
    = on_document (set_errorModal (Some ("Failed to Start Quiz", msg)))
        (on_document (set_loadingOverlay false)
           match o with
           | Resolved results => on_state (set_questions results) w
           | Rejected _ => w
           end).
Proof.
  intros [->|[err ->]]; eexists; unfold startQuiz_settle, hideLoading, showError;
    by run_M.
Qed.

Lemma step_StartClicked (w : App) : step w StartClicked = exec startQuiz_request w.
Proof.
  unfold step, exec, try_catch. cbn [dispatch]. unfold bind.
  by destruct (startQuiz_request_spec w) as [(msg & -> & _)|[-> _]].
Qed.

Lemma startQuiz_settle_returns (w : App) (o : FetchOutcome) :
  startQuiz_settle o w = (Returned tt, exec (startQuiz_settle o) w).
Proof.
  unfold exec, startQuiz_settle, try_catch.
  destruct (bind _ _ w) as [[[]|err] w']; [done|].
  unfold hideLoading, showError. by run_M.
Qed.

Lemma step_FetchSettled (w : App) (o : FetchOutcome) (n : nat) :
  fetches (env w) = S n ->
  step w (FetchSettled o) = exec (startQuiz_settle o) (on_env (set_fetches n) w).
Proof.
  intros Hf. unfold step, exec at 1, try_catch. cbn [dispatch].
  unfold bind at 1, get. rewrite Hf. unfold bind, modify.
  by rewrite startQuiz_settle_returns.
Qed.

(** [startQuiz o] is the click on Start followed at once by the answer [o]
    to the request, if one was sent. *)
Lemma startQuiz_as_events (w : App) (o : FetchOutcome) :
  exec (startQuiz o) w
  = if decide (out_of_range (form (document w))) then step w StartClicked
    else run w [StartClicked; FetchSettled o].
Proof.
  unfold run. cbn [foldl]. rewrite step_StartClicked.
  unfold startQuiz. rewrite exec_bind. unfold exec at 2 3.
  destruct (startQuiz_request_spec w) as [(msg & -> & Hr)|[-> Hr]].
  - rewrite decide_True; done.
  - rewrite decide_False; [|done]. cbn [fst snd].
    rewrite exec_bind. unfold modify at 1.
    by rewrite (step_FetchSettled _ o (fetches (env (collected w)))).
Qed.

Lemma failed_start_breaks_questions :
  questions (state Sample.idle_again) = [Sample.paris]
  /\ isQuizActive (state Sample.idle_again) = false
  /\ screen (document Sample.idle_again) = StartScreen
  /\ errorModal (document (exec (startQuiz (Resolved [])) Sample.idle_again))
     = Some ("Failed to Start Quiz", "No questions received from the server")
  /\ questions (state (exec (startQuiz (Resolved [])) Sample.idle_again)) = []
  /\ state (exec (startQuiz (Resolved [])) Sample.idle_again)
     <> state Sample.idle_again.
Proof.
  repeat split; try (vm_compute; reflexivity).
  intros H. apply (f_equal questions) in H. vm_compute in H. discriminate H.
Qed.

(** C5, as the code has it.  A start that fails (settings out of range, no
    question received, or a failed request) is reported in the error modal
    and starts no session: every field of the running session keeps its
    value and the screen stays.  The state holds the settings entered.
    [questions] keeps its value when the settings are refused or the
    request fails, and holds the empty list received otherwise. *)
Theorem failed_start_keeps_session (w : App) (o : FetchOutcome) :
  out_of_range (form (document w))
  \/ o = Resolved [] \/ (exists err, o = Rejected err) ->
  is_Some (errorModal (document (exec (startQuiz o) w)))
  /\ session_fields (state (exec (startQuiz o) w)) = session_fields (state w)
  /\ screen (document (exec (startQuiz o) w)) = screen (document w)
  /\ settings (state (exec (startQuiz o) w)) = form (document w)
  /\ questions (state (exec (startQuiz o) w))
     = if decide (out_of_range (form (document w))) then questions (state w)
       else match o with
            | Resolved results => results
            | Rejected _ => questions (state w)
            end.
Proof.
  intros Hfail.
  destruct (collected_spec w) as (Hset & Hses & Hq & Hdoc & _).
  unfold startQuiz. rewrite exec_bind.
  destruct (startQuiz_request_spec w) as [(msg & -> & Hr)|[-> Hr]].
  - rewrite decide_True by done. unfold exec, ret. cbn [fst snd]. fields.
    by rewrite Hdoc.
  - rewrite decide_False by done. destruct Hfail as [?|Hfail]; [done|].
    rewrite exec_bind. unfold modify. cbv beta iota.
    destruct (startQuiz_settle_failed
                (on_env (fun e => set_fetches (pred (fetches e)) e)
                   (on_env (fun e => set_fetches (S (fetches e)) e)
                      (on_document (set_loadingOverlay true) (collected w))))
                o Hfail) as [msg ->].
    destruct Hfail as [->|[err ->]]; fields; by rewrite ?Hdoc.
Qed.

Lemma failed_start_keeps_session_witness :
  (exists err, Rejected "HTTP error! status: 500" = Rejected err)
  /\ is_Some (errorModal (document
       (exec (startQuiz (Rejected "HTTP error! status: 500")) Sample.idle_again)))
  /\ session_fields
       (state (exec (startQuiz (Rejected "HTTP error! status: 500"))
                    Sample.idle_again))
     = session_fields (state Sample.idle_again)
  /\ questions
       (state (exec (startQuiz (Rejected "HTTP error! status: 500"))
                    Sample.idle_again))
     = [Sample.paris].
Proof.
  assert (exists err, Rejected "HTTP error! status: 500" = Rejected err) as H
    by (eexists; reflexivity).
  split; [exact H|].
  destruct (failed_start_keeps_session Sample.idle_again _ (or_intror (or_intror H)))
    as (H1 & H2 & _ & _ & H5).
  split; [exact H1|]. split; [exact H2|].
  rewrite H5. vm_compute. reflexivity.
Defined.

(** ** Shuffling *)

Lemma Math_random_unit (rnd : nat -> Q) (c : nat) :
  (0 <= Math_random rnd c)%Q /\ (Math_random rnd c < 1)%Q.
Proof.
  unfold Math_random.
  pose proof (Qfloor_le (rnd c)) as Hlo.
  pose proof (Qlt_floor (rnd c)) as Hhi.
  rewrite inject_Z_plus in Hhi. change (inject_Z 1) with 1%Q in Hhi.
  split; lra.
Qed.

(** The index drawn for position [i] is one of [0..i]: the branch of [swap]
    that leaves the array alone is never taken by the loop. *)
Lemma random_index_le (rnd : nat -> Q) (c i : nat) : random_index rnd c i <= i.
Proof.
  unfold random_index.
  destruct (Math_random_unit rnd c) as [_ Hhi].
  set (n := inject_Z (Z.of_nat (i + 1))).
  assert (0 < n)%Q as Hn.
  { unfold n. change 0%Q with (inject_Z 0). rewrite <- Zlt_Qlt. lia. }
  assert (Math_random rnd c * n < n)%Q as Hlt.
  { rewrite <- (Qmult_1_l n) at 2. by apply Qmult_lt_compat_r. }
  pose proof (Qfloor_le (Math_random rnd c * n)) as Hfl.
  assert (Qfloor (Math_random rnd c * n) < Z.of_nat (i + 1))%Z as Hz.
  { rewrite Zlt_Qlt. eapply Qle_lt_trans; [exact Hfl|exact Hlt]. }
  lia.
Qed.

Section shuffle_facts.

Context {A : Type}.
Implicit Types (a l : list A) (h : gmap nat (list A)).

Lemma insert_head_Permutation l (j : nat) (x y : A) :
  l !! j = Some y -> y :: <[j := x]> l ≡ₚ x :: l.
Proof.
  revert j. induction l as [|z l IH]; intros [|j] H; try discriminate H.
  - injection H as ->. cbn. apply perm_swap.
  - cbn in *. rewrite (perm_swap z y), (IH j H). apply perm_swap.
Qed.

Lemma swap_Permutation (i j : nat) a : swap i j a ≡ₚ a.
Proof.
  unfold swap.
  destruct (a !! i) as [x|] eqn:Hi; [|done].
  destruct (a !! j) as [y|] eqn:Hj; [|done].
  revert i j Hi Hj. induction a as [|z a IH]; intros [|i] [|j] Hi Hj;
    try discriminate; cbn in *.
  - by simplify_eq.
  - simplify_eq. by apply insert_head_Permutation.
  - simplify_eq. by apply insert_head_Permutation.
  - by rewrite IH.
Qed.

Lemma shuffle_loop_spec (rnd : nat -> Q) (s i c : nat) h l :
  h !! s = Some l ->
  exists l',
    (shuffle_loop rnd s i c h).1 !! s = Some l'
    /\ l' ≡ₚ l
    /\ forall r, r <> s -> (shuffle_loop rnd s i c h).1 !! r = h !! r.
Proof.
  revert c h l. induction i as [|i IH]; intros c h l Hs; cbn [shuffle_loop].
  - by exists l.
  - destruct (IH (S c)
                 (alter (swap (S i) (random_index rnd c (S i))) s h)
                 (swap (S i) (random_index rnd c (S i)) l))
      as (l' & Hl' & Hp & Hr).
    { by rewrite lookup_alter_eq, Hs. }
    exists l'. split; [done|]. split.
    + by rewrite Hp, swap_Permutation.
    + intros r Hne. rewrite (Hr r Hne). by apply lookup_alter_ne.
Qed.

Lemma shuffleArray_spec (rnd : nat -> Q) (c : nat) h (array : nat) l :
  h !! array = Some l ->
  exists l',
    (shuffleArray rnd c h array).1.1 !! (shuffleArray rnd c h array).1.2
    = Some l'
    /\ l' ≡ₚ l
    /\ (shuffleArray rnd c h array).1.2 <> array
    /\ forall r, r <> (shuffleArray rnd c h array).1.2 ->
         (shuffleArray rnd c h array).1.1 !! r = h !! r.
Proof.
  intros Ha. unfold shuffleArray, alloc. rewrite Ha.
  change (default [] (Some l)) with l.
  set (s := fresh (dom h)).
  assert (h !! s = None) as Hfresh
    by (apply not_elem_of_dom, is_fresh).
  destruct (shuffle_loop rnd s (length (default [] (<[s:=l]> h !! s)) - 1) c
              (<[s:=l]> h)) as [h2 c'] eqn:Hloop.
  destruct (shuffle_loop_spec rnd s
              (length (default [] (<[s:=l]> h !! s)) - 1) c (<[s:=l]> h) l)
    as (l' & Hl' & Hp & Hr); [apply lookup_insert_eq|].
  rewrite Hloop in Hl', Hr. cbn [fst snd] in *.
  exists l'. split; [done|]. split; [done|]. split; [congruence|].
  intros r Hne. rewrite (Hr r Hne). by apply lookup_insert_ne.
Qed.

Lemma shuffle_new_Permutation (rnd : nat -> Q) (c : nat) l :
  (shuffle_new rnd c l).1 ≡ₚ l.
Proof.
  unfold shuffle_new, alloc.
  destruct (shuffleArray_spec rnd c (<[fresh (dom (∅ : gmap nat (list A))) := l]> ∅)
              (fresh (dom (∅ : gmap nat (list A)))) l)
    as (l' & Hl' & Hp & _); [apply lookup_insert_eq|].
  destruct (shuffleArray _ _ _ _) as [[h' s] c']. cbn [fst snd] in *.
  by rewrite Hl'.
Qed.

End shuffle_facts.

(** C10. [Utils.shuffleArray] returns a new array that holds a permutation
    of the elements of its argument (so the same length), and leaves its
    argument and every other array as they were; the answer elements
    [generateAnswers] builds are the incorrect answers and the correct
    answer of the question, in some order. *)
Theorem shuffleArray_permutes (rnd : nat -> Q) (c : nat)
    (h : gmap nat (list string)) (array : nat) (l : list string)
    (w : App) (qn : Question) :
  h !! array = Some l ->
  (exists l',
     (shuffleArray rnd c h array).1.1 !! (shuffleArray rnd c h array).1.2
     = Some l'
     /\ l' ≡ₚ l
     /\ length l' = length l)
  /\ (shuffleArray rnd c h array).1.1 !! array = Some l
  /\ (forall r, r <> (shuffleArray rnd c h array).1.2 ->
        (shuffleArray rnd c h array).1.1 !! r = h !! r)
  /\ answers (document (exec (generateAnswers qn) w))
     ≡ₚ incorrect_answers qn ++ [correct_answer qn].
Proof.
  intros Ha.
  destruct (shuffleArray_spec rnd c h array l Ha) as (l' & Hl' & Hp & Hne & Hr).
  split; [|split; [|split]].
  - exists l'. split; [done|]. split; [done|]. by rewrite Hp.
  - by rewrite Hr.
  - done.
  - unfold generateAnswers. run_M.
    pose proof (shuffle_new_Permutation (random (env w)) (randomCalls (env w))
                  (incorrect_answers qn ++ [correct_answer qn])) as Hs.
    destruct (shuffle_new _ _ _) as [shuffled c']. by fields.
Qed.

Lemma shuffleArray_permutes_witness :
  ({[ 0 := ["a"; "b"; "c"; "d"] ]} : gmap nat (list string)) !! 0
  = Some ["a"; "b"; "c"; "d"]
  /\ (shuffleArray (random Sample.browser) 0
        ({[ 0 := ["a"; "b"; "c"; "d"] ]} : gmap nat (list string)) 0).1.1 !! 0
     = Some ["a"; "b"; "c"; "d"]
  /\ answers (document (exec (generateAnswers Sample.paris) (Sample.opened 1 20)))
     ≡ₚ incorrect_answers Sample.paris ++ [correct_answer Sample.paris].
Proof.
  assert (({[ 0 := ["a"; "b"; "c"; "d"] ]} : gmap nat (list string)) !! 0
          = Some ["a"; "b"; "c"; "d"]) as H by apply lookup_singleton_eq.
  split; [exact H|].
  destruct (shuffleArray_permutes (random Sample.browser) 0 _ 0 _
              (Sample.opened 1 20) Sample.paris H) as (_ & H1 & _ & H2).
  split; [exact H1|exact H2].
Defined.

(** ** The summary *)

(** The check of [Math.round(total / n)], run for every [n] from 1 to 50. *)
Lemma average_agrees_checked : all_from average_agrees_row 1 50 = true.
Proof. vm_compute. reflexivity. Qed.

Lemma results_agree_checked : results_agree_in_range.
Proof. apply (bool_decide_unpack _). vm_compute. reflexivity. Qed.

Lemma all_from_spec (f : Z -> bool) (lo : Z) (count : nat) :
  all_from f lo count = true ->
  forall z, (lo <= z < lo + Z.of_nat count)%Z -> f z = true.
Proof.
  revert lo. induction count as [|k IH]; intros lo H z Hz; [lia|].
  cbn [all_from] in H. apply andb_true_iff in H as [H0 Hk].
  destruct (decide (z = lo)) as [->|Hne]; [done|].
  apply (IH (lo + 1)%Z Hk). lia.
Qed.

Lemma average_in_range (n total : Z) :
  (1 <= n <= 50)%Z -> (0 <= total <= 300 * n)%Z ->
  exists r,
    Math_round (PrimFloat.div (float_of_Z total) (float_of_Z n)) = Int r
    /\ (2 * n * r - n <= 2 * total < 2 * n * r + n)%Z.
Proof.
  intros Hn Ht.
  assert (1 <= n < 1 + Z.of_nat 50)%Z as Hb by lia.
  assert (0 <= total < 0 + Z.of_nat (Z.to_nat (300 * n + 1)))%Z as Hb' by lia.
  pose proof (all_from_spec average_agrees_row 1 50
                average_agrees_checked n Hb) as Hrow.
  unfold average_agrees_row in Hrow.
  pose proof (all_from_spec (average_agrees n) 0 _ Hrow total Hb') as Hc.
  clear Hrow. unfold average_agrees in Hc.
  destruct (Math_round _) as [r| | |]; try discriminate Hc.
  exists r. split; [reflexivity|].
  apply andb_true_iff in Hc as [H1 H2].
  apply Z.leb_le in H1. apply Z.ltb_lt in H2. done.
Qed.

Lemma results_in_range (score total : nat) :
  1 <= total <= 50 -> score <= total -> results_agree score total.
Proof.
  intros Ht Hs.
  assert (total ∈ seq 1 50) as Ht' by (apply elem_of_seq; lia).
  assert (score ∈ seq 0 (S total)) as Hs' by (apply elem_of_seq; lia).
  pose proof results_agree_checked as H. unfold results_agree_in_range in H.
  rewrite Forall_forall in H. specialize (H total Ht').
  rewrite Forall_forall in H. exact (H score Hs').
Qed.

Lemma round_div_nearest (a n : Z) :
  (0 < n)%Z ->
  (2 * n * round_div a n - n <= 2 * a < 2 * n * round_div a n + n)%Z.
Proof.
  intros Hn. unfold round_div.
  pose proof (Z.div_mod (2 * a + n) (2 * n) ltac:(lia)) as Hdm.
  pose proof (Z.mod_pos_bound (2 * a + n) (2 * n) ltac:(lia)) as Hm.
  lia.
Qed.

Lemma sum_of_times (times : list Z) :
  foldl js_add (Int 0) (map Int times) = Int (sumZ times).
Proof.
  assert (forall acc, foldl js_add (Int acc) (map Int times)
                      = Int (acc + sumZ times)) as H.
  { induction times as [|t times IH]; intros acc.
    - cbn [map foldl sumZ foldr]. by rewrite Z.add_0_r.
    - cbn [map foldl sumZ foldr js_add]. rewrite IH. unfold sumZ.
      by rewrite Z.add_assoc. }
  apply H.
Qed.

Lemma sum_bounds (times : list Z) :
  Forall (fun t => 0 <= t <= 300)%Z times ->
  (0 <= sumZ times <= 300 * Z.of_nat (length times))%Z.
Proof.
  unfold sumZ. induction 1 as [|t times Ht _ IH]; cbn [foldr length]; lia.
Qed.

Lemma showResults_spec (w : App) :
  exists v,
    results (document (exec showResults w)) = Some v
    /\ scorePercentage v
       = shown_percentage (score (state w)) (length (questions (state w)))
    /\ performanceData v = getPerformanceMessage (state w)
    /\ avgTime v = getAverageTime (state w).
Proof. open_world w. crush. Qed.

Lemma getPerformanceMessage_shown (q : QuizState) :
  getPerformanceMessage q = shown_tier (score q) (length (questions q)).
Proof.
  unfold shown_tier, getPerformanceMessage. cbn [score questions set_score set_questions].
  by rewrite length_replicate.
Qed.

(** The catch-all entry: whatever the score, the entry returned is one of
    the table. *)
Lemma getPerformanceMessage_in_table (q : QuizState) :
  getPerformanceMessage q ∈ CONFIG.PERFORMANCE_MESSAGES.*2.
Proof.
  unfold getPerformanceMessage.
  destruct (find _ _) as [kc|] eqn:Hf.
  - apply find_some in Hf as [Hin _]. apply list_elem_of_In in Hin.
    by apply list_elem_of_fmap_2.
  - vm_compute. repeat constructor.
Qed.

Lemma average_counts_no_skipped_question :
  timeSpent <$> userAnswers (state Sample.answered_then_skipped)
  = [Int 2; Int 0]
  /\ averageTimeSeconds_spec (userAnswers (state Sample.answered_then_skipped))
     = Int 1
  /\ questionTimes (state Sample.answered_then_skipped) = [Int 2]
  /\ getAverageTime (state Sample.answered_then_skipped) = Int 2
  /\ avgTime <$> results (document Sample.answered_then_skipped)
     = Some (Int 2)
  /\ getAverageTime (state Sample.answered_then_skipped)
     <> averageTimeSeconds_spec (userAnswers (state Sample.answered_then_skipped)).
Proof. vm_compute. repeat split; try reflexivity. discriminate. Qed.

(** C7, as the code has it.  The average shown is that of [questionTimes]:
    0 when the list is empty, and otherwise (for up to 50 entries of 0 to
    300 seconds) the integer nearest to their mean, a tie going up.
    [submitAnswer], and so a timeout, appends [timePerQuestion - timeLeft]
    to the list; [skipQuestion] appends nothing, so that a skipped question
    does not enter the average and a session of skipped questions only
    averages 0 by the empty case. *)
Theorem average_over_questionTimes (w : App) (times : list Z) :
  questionTimes (state w) = Int <$> times ->
  length times <= 50 ->
  Forall (fun t => 0 <= t <= 300)%Z times ->
  (times = [] -> getAverageTime (state w) = Int 0)
  /\ (times <> [] ->
      exists r,
        getAverageTime (state w) = Int r
        /\ (2 * Z.of_nat (length times) * r - Z.of_nat (length times)
            <= 2 * sumZ times
            < 2 * Z.of_nat (length times) * r + Z.of_nat (length times))%Z)
  /\ avgTime <$> results (document (exec showResults w))
     = Some (getAverageTime (state w))
  /\ questionTimes (state (exec skipQuestion w)) = questionTimes (state w)
  /\ (isAnswered (state w) = false ->
      truthy (questionStartTime (state w)) = true ->
      questionTimes (state (exec submitAnswer w))
      = questionTimes (state w)
        ++ [js_sub (timePerQuestion (settings (state w)))
                   (timeLeft (state w))]).
Proof.
  intros Hq Hlen Hall. split; [|split; [|split; [|split]]].
  - intros ->. unfold getAverageTime. by rewrite Hq.
  - intros Hne.
    assert (0 < length times) as Hpos by (destruct times; [done|cbn; lia]).
    pose proof (sum_bounds times Hall) as Hsum.
    unfold getAverageTime. rewrite Hq, length_fmap.
    destruct (length times =? 0)%nat eqn:H0; [apply Nat.eqb_eq in H0; lia|].
    change (map Int times) with (Int <$> times). rewrite sum_of_times.
    apply average_in_range; lia.
  - destruct (showResults_spec w) as (v & -> & _ & _ & <-). done.
  - clear. open_world w. crush.
  - clear. intros Hun Htr. open_world w. subst. crush.
Qed.

Lemma average_over_questionTimes_witness :
  questionTimes (state Sample.answered_then_skipped) = Int <$> [2%Z]
  /\ length [2%Z] <= 50
  /\ Forall (fun t => 0 <= t <= 300)%Z [2%Z]
  /\ exists r,
       getAverageTime (state Sample.answered_then_skipped) = Int r
       /\ (2 * Z.of_nat (length [2%Z]) * r - Z.of_nat (length [2%Z])
           <= 2 * sumZ [2%Z]
           < 2 * Z.of_nat (length [2%Z]) * r + Z.of_nat (length [2%Z]))%Z.
Proof.
  assert (questionTimes (state Sample.answered_then_skipped) = Int <$> [2%Z])
    as H1 by (vm_compute; reflexivity).
  assert (length [2%Z] <= 50) as H2 by (cbn; lia).
  assert (Forall (fun t => 0 <= t <= 300)%Z [2%Z]) as H3
    by (repeat constructor; lia).
  split; [exact H1|]. split; [exact H2|]. split; [exact H3|].
  exact (proj1 (proj2 (average_over_questionTimes _ _ H1 H2 H3))
           ltac:(discriminate)).
Defined.

Lemma tier_uses_unrounded_percentage :
  score (state Sample.scored_26_of_29) = 26
  /\ length (questions (state Sample.scored_26_of_29)) = 29
  /\ scorePercentage <$> results (document (exec showResults Sample.scored_26_of_29))
     = Some (Int 90)
  /\ tier_spec 90 = Some CONFIG.EXCELLENT
  /\ performanceData <$> results (document (exec showResults Sample.scored_26_of_29))
     = Some CONFIG.VERY_GOOD
  /\ performanceData <$> results (document (exec showResults Sample.scored_26_of_29))
     <> tier_spec 90.
Proof. vm_compute. repeat split; try reflexivity. discriminate. Qed.

(** 23 correct answers out of 40 make 57.5 percent; [(23 / 40) * 100] in
    binary64 is just below, and the screen shows 57. *)
Lemma percentage_of_23_in_40 :
  shown_percentage 23 40 = Int 57 /\ round_div (100 * 23) 40 = 58%Z.
Proof. vm_compute. split; reflexivity. Qed.

(** C8, as the code has it.  For a quiz of 1 to 50 questions, the
    percentage shown is the integer nearest to [100 * score / total] (a tie
    going up; 23 of 40 is left aside), and the tier is the first entry of
    the table 90, 80, 70, 60, 0 whose minimum is at most the unrounded
    [100 * score / total].  It is always an entry of the table, and when
    the percentage shown is 75 it is the 70 entry. *)
Theorem results_percentage_and_tier (w : App) :
  1 <= length (questions (state w)) <= 50 ->
  score (state w) <= length (questions (state w)) ->
  exists v,
    results (document (exec showResults w)) = Some v
    /\ ((score (state w), length (questions (state w))) <> (23, 40) ->
        scorePercentage v
        = Int (round_div (100 * Z.of_nat (score (state w)))
                         (Z.of_nat (length (questions (state w))))))
    /\ tier_exact (Z.of_nat (score (state w)))
                  (Z.of_nat (length (questions (state w))))
       = Some (performanceData v)
    /\ (scorePercentage v = Int 75 -> performanceData v = CONFIG.GOOD)
    /\ performanceData v ∈ CONFIG.PERFORMANCE_MESSAGES.*2
    /\ CONFIG.min <$> CONFIG.PERFORMANCE_MESSAGES.*2 = [90; 80; 70; 60; 0]%Z.
Proof.
  intros Hlen Hscore.
  destruct (showResults_spec w) as (v & Hv & Hp & Ht & _).
  destruct (results_in_range _ _ Hlen Hscore) as (Hround & Htier & H75).
  exists v. rewrite Hp, Ht, getPerformanceMessage_shown.
  split; [done|]. split; [done|]. split; [done|]. split; [done|].
  split; [|reflexivity].
  rewrite <- getPerformanceMessage_shown. apply getPerformanceMessage_in_table.
Qed.

Lemma results_percentage_and_tier_witness :
  1 <= length (questions (state Sample.scored_26_of_29)) <= 50
  /\ score (state Sample.scored_26_of_29)
     <= length (questions (state Sample.scored_26_of_29))
  /\ exists v,
       results (document (exec showResults Sample.scored_26_of_29)) = Some v
       /\ tier_exact 26 29 = Some (performanceData v).
Proof.
  assert (1 <= length (questions (state Sample.scored_26_of_29)) <= 50) as H1
    by (vm_compute; lia).
  assert (score (state Sample.scored_26_of_29)
          <= length (questions (state Sample.scored_26_of_29))) as H2
    by (vm_compute; lia).
  split; [exact H1|]. split; [exact H2|].
  destruct (results_percentage_and_tier _ H1 H2) as (v & Hv & _ & Ht & _).
  exists v. split; [exact Hv|exact Ht].
Defined.

(** * Further properties of the code *)

(** ** Counters *)

Lemma step_counters_bounded (w : App) (ev : Event) :
  counters_bounded (state w) -> counters_bounded (state (step w ev)).
Proof.
  unfold counters_bounded. intros (H1 & H2 & H3 & H4). open_world w.
  destruct ev as [ | [[|qn qs]|err] | | | | | [|] | | | | | ctrl key | h | h | t ].
  all: try (destruct key; destruct ctrl).
  all: crush; cbn; rewrite ?length_app; unfold Math_max; cbn; lia.
Qed.

(** X1. In every world the page can reach, there are never more records
    than questions shown so far (the current one counted once it is
    resolved), the score never exceeds the number of records, and
    [streak <= bestStreak <= score]. *)
Theorem counters_stay_bounded (w : App) :
  reachable w -> counters_bounded (state w).
Proof.
  induction 1 as [d e|w ev _ IH].
  - unfold QuizApp_new, counters_bounded.
    destruct (localStorage e); cbn; lia.
  - by apply step_counters_bounded.
Qed.

Lemma counters_stay_bounded_witness :
  reachable Sample.answered_then_skipped
  /\ counters_bounded (state Sample.answered_then_skipped).
Proof.
  assert (reachable Sample.answered_then_skipped) as H.
  { unfold Sample.answered_then_skipped, Sample.started, run. cbn [foldl].
    repeat apply reachable_step. apply reachable_new. }
  split; [exact H|exact (counters_stay_bounded _ H)].
Defined.

(** ** A quiz played to the end *)

Lemma resolve_round (w : App) (r : Resolution) :
  isAnswered (state w) = false ->
  is_Some (currentQuestion (state w)) ->
  one_countdown w ->
  isAnswered (state (exec (resolve r) w)) = true
  /\ currentQuestionIndex (state (exec (resolve r) w))
     = currentQuestionIndex (state w)
  /\ questions (state (exec (resolve r) w)) = questions (state w)
  /\ length (userAnswers (state (exec (resolve r) w)))
     = S (length (userAnswers (state w)))
  /\ no_countdown (exec (resolve r) w).
Proof.
  unfold currentQuestion, one_countdown, no_countdown.
  intros Hun [qn Hq] (h & Ht & Hi).
  destruct w as [q d e]; destruct q; destruct e; cbn in Hun, Hq, Ht, Hi.
  subst. fields.
  destruct r; cbn [resolve]; crush; rewrite ?length_app; cbn;
    repeat split; try lia; set_solver.
Qed.

Lemma nextQuestion_round (w : App) :
  no_countdown w ->
  let w' := exec nextQuestion w in
  questions (state w') = questions (state w)
  /\ userAnswers (state w') = userAnswers (state w)
  /\ if (currentQuestionIndex (state w) + 1 <? length (questions (state w)))%nat
     then currentQuestionIndex (state w') = currentQuestionIndex (state w) + 1
          /\ isAnswered (state w') = false
          /\ isQuizActive (state w') = isQuizActive (state w)
          /\ one_countdown w'
     else screen (document w') = EndScreen
          /\ isQuizActive (state w') = false
          /\ no_countdown w'
          /\ exists r, results (document w') = Some r
               /\ finalScore r = score (state w')
               /\ totalScore r = length (questions (state w')).
Proof.
  unfold no_countdown, one_countdown. intros [Ht Hi].
  destruct w as [q d e]; destruct q; destruct e; cbn in Ht, Hi. subst.
  cbn zeta. unfold nextQuestion. run_M.
  destruct (_ <? _)%nat eqn:Hlt; fields.
  - pose proof (proj1 (Nat.ltb_lt _ _) Hlt) as Hlt'.
    destruct (lookup_lt_is_Some_2 _ _ Hlt') as [qn Hqn].
    unfold showQuestion. run_M.
    rewrite (proj2 (Nat.leb_gt _ _) Hlt'). rewrite Hqn.
    crush. repeat split; try done. eexists; split; [done|]. fields. set_solver.
  - crush. repeat split; try done. by eexists.
Qed.

Lemma round_spec (w : App) (r : Resolution) :
  isAnswered (state w) = false ->
  (currentQuestionIndex (state w) < length (questions (state w)))%nat ->
  one_countdown w ->
  let w' := round w r in
  questions (state w') = questions (state w)
  /\ length (userAnswers (state w')) = S (length (userAnswers (state w)))
  /\ if (currentQuestionIndex (state w) + 1 <? length (questions (state w)))%nat
     then currentQuestionIndex (state w') = currentQuestionIndex (state w) + 1
          /\ isAnswered (state w') = false
          /\ one_countdown w'
     else screen (document w') = EndScreen
          /\ isQuizActive (state w') = false
          /\ no_countdown w'
          /\ exists r, results (document w') = Some r
               /\ finalScore r = score (state w')
               /\ totalScore r = length (questions (state w')).
Proof.
  intros Hun Hlt Hone. cbn zeta. unfold round.
  destruct (resolve_round w r Hun) as (_ & Hi & Hq & Hl & Hno); [|done|].
  { by apply lookup_lt_is_Some_2. }
  pose proof (nextQuestion_round _ Hno) as Hnext. cbn zeta in Hnext.
  rewrite Hi, Hq in Hnext. destruct Hnext as (Hq' & Ha' & Hrest).
  split; [done|]. split; [by rewrite Ha', Hl|].
  destruct (_ <? _)%nat; [|done].
  by destruct Hrest as (? & ? & _ & ?).
Qed.

(** X2. A quiz played to the end.  From an unanswered question with its
    countdown running, resolving each remaining question in any of the
    three ways (submit, timeout, skip) and advancing with [nextQuestion]
    after each one ends on the results screen: the quiz is inactive, no
    countdown is left, every question played has got exactly one record,
    and the results show the score out of the number of questions.  Before
    every round exactly one countdown is live. *)
Theorem play_reaches_results (rs : list Resolution) (w : App) :
  isAnswered (state w) = false ->
  one_countdown w ->
  rs <> [] ->
  currentQuestionIndex (state w) + length rs = length (questions (state w)) ->
  let w' := play w rs in
  screen (document w') = EndScreen
  /\ isQuizActive (state w') = false
  /\ no_countdown w'
  /\ questions (state w') = questions (state w)
  /\ length (userAnswers (state w'))
     = length (userAnswers (state w)) + length rs
  /\ (exists r, results (document w') = Some r
        /\ finalScore r = score (state w')
        /\ totalScore r = length (questions (state w)))
  /\ forall k, k < length rs -> one_countdown (play w (take k rs)).
Proof.
  cbn zeta. revert w.
  induction rs as [|r rs IH]; intros w Hun Hone Hne Hlen; [done|].
  cbn [length] in Hlen.
  pose proof (round_spec w r Hun ltac:(lia) Hone) as Hround.
  cbn zeta in Hround. destruct Hround as (Hq & Hl & Hrest).
  destruct rs as [|r' rs].
  - cbn [play foldl length].
    rewrite (proj2 (Nat.ltb_ge _ _)) in Hrest by (cbn in Hlen; lia).
    destruct Hrest as (? & ? & ? & r0 & ? & ? & ?).
    split_and!; try done; try lia.
    + exists r0. split_and!; try done. congruence.
    + intros k Hk. by replace k with 0 by (cbn in Hk; lia).
  - rewrite (proj2 (Nat.ltb_lt _ _)) in Hrest by (cbn in Hlen; cbn; lia).
    destruct Hrest as (Hi & Hun' & Hone').
    destruct (IH (round w r) Hun' Hone' ltac:(done)) as
      (? & ? & ? & Hq' & Hl' & (r0 & ? & ? & ?) & Hk').
    { rewrite Hi, Hq. cbn [length] in *. lia. }
    change (play w (r :: r' :: rs)) with (play (round w r) (r' :: rs)).
    split_and!; try done.
    + congruence.
    + rewrite Hl', Hl. cbn [length]. lia.
    + exists r0. split_and!; try done. congruence.
    + intros [|k] Hk; [done|].
      change (take (S k) (r :: r' :: rs)) with (r :: take k (r' :: rs)).
      change (play w (r :: take k (r' :: rs)))
        with (play (round w r) (take k (r' :: rs))).
      apply Hk'. cbn [length] in *. lia.
Qed.

Lemma play_reaches_results_witness :
  let w := Sample.started 3 20 [Sample.paris; Sample.four; Sample.mars] in
  let w' := play w [BySubmit; BySkip; ByTimeout] in
  screen (document w') = EndScreen
  /\ isQuizActive (state w') = false
  /\ length (userAnswers (state w')) = 3.
Proof.
  cbn zeta.
  assert (one_countdown
            (Sample.started 3 20 [Sample.paris; Sample.four; Sample.mars])) as H.
  { exists 1%positive. by vm_compute. }
  pose proof (play_reaches_results [BySubmit; BySkip; ByTimeout]
                (Sample.started 3 20 [Sample.paris; Sample.four; Sample.mars])
                eq_refl H ltac:(discriminate) eq_refl) as Hplay.
  cbn zeta in Hplay.
  destruct Hplay as (H1 & H2 & _ & _ & H3 & _). by repeat split.
Defined.

(** ** A successful start *)

Lemma startQuiz_settle_started (w : App) (qn : Question) (qs : list Question) :
  fetches (env w) <> 0 ->
  let w' := step w (FetchSettled (Resolved (qn :: qs))) in
  questions (state w') = qn :: qs
  /\ currentQuestionIndex (state w') = 0
  /\ (score (state w'), streak (state w'), bestStreak (state w')) = (0, 0, 0)
  /\ questionTimes (state w') = [] /\ userAnswers (state w') = []
  /\ isAnswered (state w') = false /\ isQuizActive (state w') = true
  /\ timeLeft (state w') = timePerQuestion (settings (state w))
  /\ settings (state w') = settings (state w)
  /\ startTime (state w') = Some (now (env w))
  /\ questionStartTime (state w') = Some (now (env w))
  /\ screen (document w') = QuizScreen
  /\ loadingOverlay (document w') = false
  /\ errorModal (document w') = errorModal (document w)
  /\ answers (document w') ≡ₚ incorrect_answers qn ++ [correct_answer qn]
  /\ selected (document w') = None
  /\ timer (state w') = Some (nextHandle (env w))
  /\ intervals (env w')
     = {[nextHandle (env w)]} ∪ intervals (env (cleared w))
  /\ fetches (env w') = pred (fetches (env w)).
Proof.
  intros Hf. cbn zeta.
  destruct (fetches (env w)) as [|n] eqn:Hn; [done|].
  rewrite (step_FetchSettled _ _ n Hn). unfold cleared.
  destruct w as [[qs0 idx sc st bs tl tm stt qst qts uas stg ans act] d e].
  destruct e as [ivs tos nh fs ls sth nw rnd rc]. cbn in Hn. subst.
  pose proof (shuffle_new_Permutation rnd rc
                (incorrect_answers qn ++ [correct_answer qn])) as Hp.
  unfold startQuiz_settle, showQuestion, generateAnswers, reset.
  unfold_methods.
  destruct tm;
    repeat progress (run_M; cbn [length Nat.eqb Nat.leb lookup list_lookup]);
    destruct (shuffle_new _ _ _) as [l c] eqn:Hs; cbn [fst] in Hp;
    repeat progress (run_M; cbn [length Nat.eqb Nat.leb lookup list_lookup]);
    split_and!; done.
Qed.


(** X3. When a pending request of [startQuiz] comes back with at least one
    question, whatever the page was doing: the questions are stored, the
    counters and both lists are reset, the quiz is active on the quiz
    screen at question 0, unanswered, with nothing selected and a full
    countdown; the answers displayed are a permutation of the incorrect
    answers and the correct one; the countdown the state pointed to before
    is cleared and the new one is registered under a fresh handle. *)
Theorem successful_start (w : App) (qn : Question) (qs : list Question) :
  fetches (env w) <> 0 ->
  let w' := step w (FetchSettled (Resolved (qn :: qs))) in
  questions (state w') = qn :: qs
  /\ currentQuestionIndex (state w') = 0
  /\ (score (state w'), streak (state w'), bestStreak (state w')) = (0, 0, 0)
  /\ questionTimes (state w') = [] /\ userAnswers (state w') = []
  /\ isAnswered (state w') = false /\ isQuizActive (state w') = true
  /\ timeLeft (state w') = timePerQuestion (settings (state w))
  /\ settings (state w') = settings (state w)
  /\ startTime (state w') = Some (now (env w))
  /\ questionStartTime (state w') = Some (now (env w))
  /\ screen (document w') = QuizScreen
  /\ loadingOverlay (document w') = false
  /\ errorModal (document w') = errorModal (document w)
  /\ answers (document w') ≡ₚ incorrect_answers qn ++ [correct_answer qn]
  /\ selected (document w') = None
  /\ timer (state w') = Some (nextHandle (env w))
  /\ intervals (env w')
     = {[nextHandle (env w)]} ∪ intervals (env (cleared w))
  /\ fetches (env w') = pred (fetches (env w)).
Proof. exact (startQuiz_settle_started w qn qs). Qed.

Lemma successful_start_witness :
  let w := step (Sample.opened 1 20) StartClicked in
  let w' := step w (FetchSettled (Resolved [Sample.paris])) in
  fetches (env w) <> 0
  /\ isQuizActive (state w') = true
  /\ timer (state w') = Some 1%positive.
Proof.
  cbn zeta.
  assert (fetches (env (step (Sample.opened 1 20) StartClicked)) <> 0) as H
    by (vm_compute; lia).
  split; [exact H|].
  destruct (successful_start _ Sample.paris [] H)
    as (_ & _ & _ & _ & _ & _ & Ha & _ & _ & _ & _ & _ & _ & _ & _ & _ & Ht & _).
  split; [exact Ha|exact Ht].
Defined.

(** ** The countdown *)

Lemma tick_counts_down (w : App) (h : handle) (t : Z) :
  h ∈ intervals (env w) ->
  timeLeft (state w) = Int t -> (1 < t)%Z ->
  step w (IntervalFired h) = on_state (set_timeLeft (Int (t - 1))) w.
Proof.
  intros Hh Ht Hlt.
  destruct w as [[qs0 idx sc st bs tl tm stt qst qts uas stg ans act] d e].
  cbn in Hh, Ht. subst. unfold step. cbn [dispatch]. unfold interval_callback.
  run_M. rewrite bool_decide_true by done. run_M.
  unfold js_sub, js_le, js_lt, js_eq. cbn [js_add js_neg].
  destruct (Z.ltb_spec (t + - (1)) 0); [lia|].
  destruct (Z.eqb_spec (t + - (1)) 0); [lia|]. cbn [orb].
  run_M. reflexivity.
Qed.

Lemma ticks_count_down (k : nat) (w : App) (h : handle) (t : Z) :
  h ∈ intervals (env w) ->
  timeLeft (state w) = Int t -> (Z.of_nat k < t)%Z ->
  run w (replicate k (IntervalFired h))
  = on_state (set_timeLeft (Int (t - Z.of_nat k))) w.
Proof.
  revert w t. induction k as [|k IH]; intros w t Hh Ht Hlt.
  - replace (t - Z.of_nat 0)%Z with t by lia.
    destruct w as [[] d e]. cbn in Ht. by subst.
  - cbn [replicate]. unfold run in *. cbn [foldl].
    rewrite (tick_counts_down w h t) by (done || lia).
    rewrite (IH _ (t - 1)%Z) by (done || lia).
    replace (t - 1 - Z.of_nat k)%Z with (t - Z.of_nat (S k))%Z by lia.
    by destruct w as [[] d e].
Qed.

(** X4. While more than [k] seconds are left on an unanswered or answered
    question, [k] ticks of a live countdown (the one [timer] points to or
    any other) take [k] seconds off [timeLeft] and change nothing else: no
    record, no score, nothing on the page, no timer started or stopped. *)
Theorem countdown_only_counts (k : nat) (w : App) (h : handle) (t : Z) :
  h ∈ intervals (env w) ->
  timeLeft (state w) = Int t -> (Z.of_nat k < t)%Z ->
  run w (replicate k (IntervalFired h))
  = on_state (set_timeLeft (Int (t - Z.of_nat k))) w.
Proof. exact (ticks_count_down k w h t). Qed.

Lemma countdown_only_counts_witness :
  let w := Sample.started 1 20 [Sample.paris] in
  (1%positive ∈ intervals (env w) /\ timeLeft (state w) = Int 20)
  /\ run w (replicate 8 (IntervalFired 1%positive))
     = on_state (set_timeLeft (Int 12)) w.
Proof.
  cbn zeta.
  assert (1%positive ∈ intervals (env (Sample.started 1 20 [Sample.paris]))) as H1
    by (vm_compute; set_solver).
  assert (timeLeft (state (Sample.started 1 20 [Sample.paris])) = Int 20) as H2
    by (by vm_compute).
  split; [done|].
  exact (countdown_only_counts 8 _ 1%positive 20 H1 H2 eq_refl).
Defined.

Lemma last_tick (w : App) (h : handle) (qn : Question) (T : Z) :
  h ∈ intervals (env w) ->
  isAnswered (state w) = false ->
  currentQuestion (state w) = Some qn ->
  timeLeft (state w) = Int 1 ->
  timePerQuestion (settings (state w)) = Int T ->
  let w' := step w (IntervalFired h) in
  let correct :=
    bool_decide (selectedAnswer (document w) = Some (correct_answer qn)) in
  isAnswered (state w') = true
  /\ timeLeft (state w') = Int 0
  /\ timer (state w') = None
  /\ intervals (env w') = intervals (env (cleared w))
  /\ userAnswers (state w')
     = userAnswers (state w)
       ++ [ {| a_question := question qn;
               userAnswer := selectedAnswer (document w);
               correctAnswer := correct_answer qn;
               isCorrect := correct;
               timeSpent := Int T |} ]
  /\ score (state w') = score (state w) + (if correct then 1 else 0)
  /\ questionTimes (state w')
     = questionTimes (state w)
       ++ (if truthy (questionStartTime (state w)) then [Int T] else [])
  /\ timeouts (env w') = {[nextHandle (env w)]} ∪ timeouts (env w)
  /\ nextHidden (buttons (document w')) = false.
Proof.
  unfold currentQuestion, cleared. intros Hh Hun Hq Ht HT.
  destruct w as [[qs0 idx sc st bs tl tm stt qst qts uas stg ans act] d e].
  destruct e as [ivs tos nh fs ls sth nw rnd rc].
  destruct stg as [nq cat dif tpq]. cbn in Hh, Hun, Hq, Ht, HT. subst.
  cbn zeta. unfold step. cbn [dispatch]. unfold interval_callback.
  run_M. rewrite bool_decide_true by done. run_M.
  change (js_le (js_sub (Int 1) (Int 1)) (Int 0)) with true. cbv iota.
  unfold handleTimeUp, submitAnswer, clearTimer, clearInterval,
    recordQuestionTime, push_userAnswer, incrementScore, resetStreak,
    updateButtonStates, setTimeout.
  assert (forall x : Z, (x + - 0)%Z = x) as Hz by (intros; lia).
  destruct (selectedAnswer d) as [answer|] eqn:Hsel.
  - destruct (decide (answer = correct_answer qn)) as [->|Hne].
    + rewrite (bool_decide_true (Some _ = Some _)) by done.
      destruct tm, (truthy qst) eqn:Htr;
        repeat progress (run_M; rewrite ?Htr, ?Hsel, ?Hq,
                           ?(bool_decide_true (correct_answer qn = _)) by done);
        cbn; rewrite ?Hz, ?app_nil_r; split_and!; (done || lia).
    + rewrite (bool_decide_false (Some _ = Some _)) by congruence.
      destruct tm, (truthy qst) eqn:Htr;
        repeat progress (run_M; rewrite ?Htr, ?Hsel, ?Hq,
                           ?(bool_decide_false (answer = _)) by done);
        cbn; rewrite ?Hz, ?app_nil_r; split_and!; (done || lia).
  - rewrite (bool_decide_false (None = Some _)) by done.
    destruct tm, (truthy qst) eqn:Htr;
      repeat progress (run_M; rewrite ?Htr, ?Hsel, ?Hq);
      cbn; rewrite ?Hz, ?app_nil_r; split_and!; (done || lia).
Qed.

(** X5. A countdown that runs out.  With [t > 0] seconds left on an
    unanswered question, the [t]-th tick resolves the question: it is
    answered with [timeLeft] at 0, the state's countdown is cleared, and one
    record is appended that carries whatever answer was selected at that
    moment (none if nothing was), marked correct exactly when that answer
    is the correct one and scored accordingly, with the full
    [timePerQuestion] as time spent; one delayed advance is scheduled and
    the Next button is shown. *)
Theorem countdown_expires (w : App) (h : handle) (qn : Question) (t T : Z) :
  h ∈ intervals (env w) ->
  isAnswered (state w) = false ->
  currentQuestion (state w) = Some qn ->
  timeLeft (state w) = Int t -> (0 < t)%Z ->
  timePerQuestion (settings (state w)) = Int T ->
  let w' := run w (replicate (Z.to_nat t) (IntervalFired h)) in
  let correct :=
    bool_decide (selectedAnswer (document w) = Some (correct_answer qn)) in
  isAnswered (state w') = true
  /\ timeLeft (state w') = Int 0
  /\ timer (state w') = None
  /\ intervals (env w') = intervals (env (cleared w))
  /\ userAnswers (state w')
     = userAnswers (state w)
       ++ [ {| a_question := question qn;
               userAnswer := selectedAnswer (document w);
               correctAnswer := correct_answer qn;
               isCorrect := correct;
               timeSpent := Int T |} ]
  /\ score (state w') = score (state w) + (if correct then 1 else 0)
  /\ questionTimes (state w')
     = questionTimes (state w)
       ++ (if truthy (questionStartTime (state w)) then [Int T] else [])
  /\ timeouts (env w') = {[nextHandle (env w)]} ∪ timeouts (env w)
  /\ nextHidden (buttons (document w')) = false.
Proof.
  intros Hh Hun Hq Ht Hpos HT.
  replace (Z.to_nat t) with (S (Z.to_nat (t - 1))) by lia.
  rewrite replicate_S_end. unfold run. rewrite foldl_snoc.
  fold (run w (replicate (Z.to_nat (t - 1)) (IntervalFired h))).
  rewrite (ticks_count_down _ w h t) by (done || lia).
  replace (t - Z.of_nat (Z.to_nat (t - 1)))%Z with 1%Z by lia.
  pose proof (last_tick (on_state (set_timeLeft (Int 1)) w) h qn T) as H.
  destruct w as [[qs0 idx sc st bs tl tm stt qst qts uas stg ans act] d e].
  destruct tm; exact (H Hh Hun Hq eq_refl HT).
Qed.

Lemma countdown_expires_witness :
  let w := step (Sample.started 1 5 [Sample.paris]) (AnswerClicked 0) in
  let w' := run w (replicate 5 (IntervalFired 1%positive)) in
  selectedAnswer (document w) = Some "Paris"
  /\ isAnswered (state w') = true
  /\ score (state w') = 1.
Proof.
  cbn zeta.
  assert (1%positive
            ∈ intervals (env (step (Sample.started 1 5 [Sample.paris])
                                   (AnswerClicked 0)))) as H1
    by (vm_compute; set_solver).
  split; [by vm_compute|].
  destruct (countdown_expires _ 1%positive Sample.paris 5 5 H1
              eq_refl eq_refl eq_refl eq_refl eq_refl)
    as (Ha & _ & _ & _ & _ & Hs & _).
  split; [exact Ha|exact Hs].
Defined.

(** ** A form without a time *)

Lemma tick_without_time (w : App) (h : handle) :
  timeLeft (state w) = NaN -> step w (IntervalFired h) = w.
Proof.
  intros Ht.
  destruct w as [[qs0 idx sc st bs tl tm stt qst qts uas stg ans act] d e].
  cbn in Ht. subst. unfold step. cbn [dispatch]. unfold interval_callback.
  run_M. by destruct (bool_decide _).
Qed.

Lemma ticks_without_time (k : nat) (w : App) (h : handle) :
  timeLeft (state w) = NaN -> run w (replicate k (IntervalFired h)) = w.
Proof.
  intros Ht. induction k as [|k IH]; [done|].
  cbn [replicate]. unfold run in *. cbn [foldl].
  by rewrite tick_without_time.
Qed.

(** X6. A time field without digits.  [parseInt] makes [NaN] of it, which
    [validateSettings] lets through (no comparison with [NaN] is true):
    with a number of questions in range the quiz starts, the countdown
    starts at [NaN], and no number of ticks changes anything: the question
    never times out. *)
Theorem countdown_without_time (w : App) (qn : Question) (qs : list Question) :
  timePerQuestion (form (document w)) = NaN ->
  ~ outside 1 50 (numQuestions (form (document w))) ->
  let w' := run w [StartClicked; FetchSettled (Resolved (qn :: qs))] in
  isQuizActive (state w') = true
  /\ isAnswered (state w') = false
  /\ timeLeft (state w') = NaN
  /\ forall k h, run w' (replicate k (IntervalFired h)) = w'.
Proof.
  intros Ht Hn. cbn zeta.
  change (run w [StartClicked; FetchSettled (Resolved (qn :: qs))])
    with (step (step w StartClicked) (FetchSettled (Resolved (qn :: qs)))).
  rewrite step_StartClicked.
  destruct (startQuiz_request_spec w) as [(msg & _ & [Ho|Ho])|[Heq _]].
  { done. }
  { by rewrite Ht in Ho. }
  set (w0 := on_env _ _) in Heq.
  replace (exec startQuiz_request w) with w0 by (unfold exec; by rewrite Heq).
  destruct (startQuiz_settle_started w0 qn qs)
    as (_ & _ & _ & _ & _ & Hun & Hact & Htl & _); [done|].
  assert (timeLeft (state (step w0 (FetchSettled (Resolved (qn :: qs))))) = NaN)
    as Hnan.
  { rewrite Htl. subst w0. cbn [state on_env on_document].
    destruct (collected_spec w) as (Hc & _). by rewrite Hc. }
  split_and!; try done.
  intros k h. by apply ticks_without_time.
Qed.

Lemma countdown_without_time_witness :
  let w := on_document (set_form {| numQuestions := Int 2; category := "";
                                    difficulty := "medium";
                                    timePerQuestion := NaN |})
                       (Sample.opened 2 20) in
  let w' := run w [StartClicked;
                   FetchSettled (Resolved [Sample.paris; Sample.four])] in
  isQuizActive (state w') = true
  /\ run w' (replicate 30 (IntervalFired 1%positive)) = w'.
Proof.
  cbn zeta.
  destruct (countdown_without_time
              (on_document (set_form {| numQuestions := Int 2; category := "";
                                        difficulty := "medium";
                                        timePerQuestion := NaN |})
                           (Sample.opened 2 20))
              Sample.paris [Sample.four] eq_refl)
    as (Ha & _ & _ & Hk).
  { cbn. lia. }
  split; [exact Ha|exact (Hk 30 1%positive)].
Defined.

(** ** The keyboard *)

(** X7. Every key press does what a button does, or nothing.  Ctrl+Enter
    is the Submit button while the quiz is active and the question
    unanswered; Ctrl+N is the Next button once the question is answered;
    Escape closes the error modal if it is shown; a digit from 1 to 4 is a
    click on the answer at that position while the quiz is active and the
    question unanswered (and nothing if there is no such answer); any other
    key, and any of these outside its condition, changes nothing. *)
Theorem keyboard_as_buttons (w : App) (ctrl : bool) (key : Key) :
  step w (KeyDown ctrl key)
  = match key with
    | KeyEnter =>
        if ctrl && isQuizActive (state w) && negb (isAnswered (state w))
        then step w SubmitClicked else w
    | KeyN =>
        if ctrl && isAnswered (state w) then step w NextClicked else w
    | KeyEscape =>
        if bool_decide (is_Some (errorModal (document w)))
        then step w ErrorCloseClicked else w
    | KeyDigit d =>
        if isQuizActive (state w) && negb (isAnswered (state w))
           && bool_decide (1 <= d <= 4)
        then step w (AnswerClicked (d - 1)) else w
    | KeyOther => w
    end.
Proof.
  destruct w as [[qs0 idx sc st bs tl tm stt qst qts uas stg ans act] d e].
  destruct key as [| | |n|], ctrl, act, ans; fields; cbn [andb negb].
  all: try (destruct (bool_decide (is_Some (errorModal d))) eqn:Hm).
  all: try (destruct (bool_decide (1 <= n <= 4)) eqn:Hd;
            [apply bool_decide_eq_true in Hd|apply bool_decide_eq_false in Hd]).
  all: unfold step; cbn [dispatch]; unfold handleKeyboard, parseInt_key.
  all: idtac.
  all: try (replace ((1 <=? Z.of_nat n)%Z && (Z.of_nat n <=? 4)%Z) with true
              by (symmetry; apply andb_true_iff; split; apply Z.leb_le; lia);
            replace (Z.to_nat (Z.of_nat n - 1)) with (n - 1) by lia).
  all: try (replace ((1 <=? Z.of_nat n)%Z && (Z.of_nat n <=? 4)%Z) with false
              by (symmetry; apply andb_false_iff;
                  destruct (Z.leb_spec 1 (Z.of_nat n)); [right|by left];
                  apply Z.leb_gt; lia)).
  all: crush.
Qed.

(** ** Selecting and submitting *)

Lemma click_keeps (w : App) (i : nat) :
  state (step w (AnswerClicked i)) = state w
  /\ env (step w (AnswerClicked i)) = env w
  /\ answers (document (step w (AnswerClicked i))) = answers (document w).
Proof.
  destruct w as [[qs0 idx sc st bs tl tm stt qst qts uas stg ans act] d e].
  unfold step. cbn [dispatch]. crush.
Qed.

Lemma clicks_keep (l : list nat) (w : App) :
  state (run w (AnswerClicked <$> l)) = state w
  /\ env (run w (AnswerClicked <$> l)) = env w
  /\ answers (document (run w (AnswerClicked <$> l))) = answers (document w).
Proof.
  revert w. induction l as [|i l IH]; intros w; [done|].
  cbn [fmap list_fmap]. unfold run in *. cbn [foldl].
  destruct (IH (step w (AnswerClicked i))) as (-> & -> & ->).
  apply click_keeps.
Qed.

Lemma click_then_submit (w : App) (i : nat) (a : string) (qn : Question) :
  isAnswered (state w) = false ->
  currentQuestion (state w) = Some qn ->
  answers (document w) !! i = Some a ->
  let w' := run w [AnswerClicked i; SubmitClicked] in
  let correct := bool_decide (a = correct_answer qn) in
  userAnswers (state w')
  = userAnswers (state w)
    ++ [ {| a_question := question qn;
            userAnswer := Some a;
            correctAnswer := correct_answer qn;
            isCorrect := correct;
            timeSpent := js_sub (timePerQuestion (settings (state w)))
                                (timeLeft (state w)) |} ]
  /\ score (state w') = score (state w) + (if correct then 1 else 0)
  /\ streak (state w') = (if correct then S (streak (state w)) else 0)
  /\ isAnswered (state w') = true
  /\ timer (state w') = None.
Proof.
  unfold currentQuestion. intros Hun Hq Ha.
  pose proof (lookup_lt_Some _ _ _ Ha) as Hlt.
  apply Nat.ltb_lt in Hlt.
  destruct w as [[qs0 idx sc st bs tl tm stt qst qts uas stg ans act] d e].
  destruct d as [scr answ sel em lo fm bt rs rv].
  fields. subst. cbn zeta. unfold run. cbn [foldl].
  unfold step. cbn [dispatch].
  unfold click_answer, selectAnswer, handleSubmitAnswer, submitAnswer,
    clearTimer, clearInterval, recordQuestionTime, push_userAnswer,
    incrementScore, resetStreak, updateButtonStates, selectedAnswer,
    window_onerror, showError.
  destruct (decide (a = correct_answer qn)) as [Hc|Hc].
  - rewrite (bool_decide_true _ Hc).
    destruct tm, (truthy qst) eqn:Htr;
      repeat progress (run_M; rewrite ?Hlt, ?Htr, ?Ha, ?Hq,
                         ?(bool_decide_true _ Hc));
      unfold Math_max; split_and!; (done || lia).
  - rewrite (bool_decide_false _ Hc).
    destruct tm, (truthy qst) eqn:Htr;
      repeat progress (run_M; rewrite ?Hlt, ?Htr, ?Ha, ?Hq,
                         ?(bool_decide_false _ Hc));
      split_and!; (done || lia).
Qed.

(** X8. The last click counts.  On an unanswered question, after any clicks
    on answers, a click on the answer at position [i] and then Submit
    appends one record: it holds the text of that answer, is correct
    exactly when the text equals the correct answer, and its time is
    [timePerQuestion - timeLeft]; the score grows by one and the streak by
    one if correct, the streak falls to 0 otherwise; the countdown is
    cleared. *)
Theorem last_click_is_submitted
    (w : App) (l : list nat) (i : nat) (a : string) (qn : Question) :
  isAnswered (state w) = false ->
  currentQuestion (state w) = Some qn ->
  answers (document w) !! i = Some a ->
  let w' := run w ((AnswerClicked <$> l) ++ [AnswerClicked i; SubmitClicked]) in
  let correct := bool_decide (a = correct_answer qn) in
  userAnswers (state w')
  = userAnswers (state w)
    ++ [ {| a_question := question qn;
            userAnswer := Some a;
            correctAnswer := correct_answer qn;
            isCorrect := correct;
            timeSpent := js_sub (timePerQuestion (settings (state w)))
                                (timeLeft (state w)) |} ]
  /\ score (state w') = score (state w) + (if correct then 1 else 0)
  /\ streak (state w') = (if correct then S (streak (state w)) else 0)
  /\ isAnswered (state w') = true
  /\ timer (state w') = None.
Proof.
  intros Hun Hq Ha. cbn zeta. unfold run. rewrite foldl_app.
  fold (run w (AnswerClicked <$> l)).
  destruct (clicks_keep l w) as (Hs & He & Hd).
  pose proof (click_then_submit (run w (AnswerClicked <$> l)) i a qn) as H.
  cbn zeta in H. rewrite Hs, Hd in H. by apply H.
Qed.

Lemma last_click_is_submitted_witness :
  let w := Sample.started 1 20 [Sample.paris] in
  let w' := run w ((AnswerClicked <$> [3; 7; 1])
                   ++ [AnswerClicked 0; SubmitClicked]) in
  answers (document w) !! 0 = Some "Paris"
  /\ score (state w') = 1.
Proof.
  cbn zeta.
  assert (answers (document (Sample.started 1 20 [Sample.paris])) !! 0
          = Some "Paris") as Ha by (by vm_compute).
  split; [exact Ha|].
  destruct (last_click_is_submitted (Sample.started 1 20 [Sample.paris])
              [3; 7; 1] 0 "Paris" Sample.paris eq_refl eq_refl Ha)
    as (_ & Hs & _).
  exact Hs.
Defined.

(** ** Review and back *)

(** X9. From the results screen, opening the review and coming back
    changes nothing but the review list, which holds the records: the
    session, the timers and the results shown are the same (the results
    are computed again from the same state). *)
Theorem review_and_back (w : App) :
  run (exec showResults w) [ReviewClicked; BackToResultsClicked]
  = on_document (set_review (userAnswers (state w))) (exec showResults w).
Proof.
  destruct w as [[qs0 idx sc st bs tl tm stt qst qts uas stg ans act] d e].
  unfold run. cbn [foldl]. unfold step. cbn [dispatch].
  unfold showReview, showResults, switchScreen, window_onerror, showError.
  run_M. by destruct d.
Qed.

(** ** Quit while the delayed advance is pending *)

(** X10. [reset] clears the countdown but not the delayed advance that
    [handleTimeUp] scheduled.  If the user quits while one is pending and
    the quiz has a second question, the callback still runs
    [nextQuestion]: the page is on the start screen with the quiz
    inactive, and question 1 has been entered with a new countdown
    running. *)
Theorem delayed_advance_survives_quit (w : App) (h : handle) (qn : Question) :
  h ∈ timeouts (env w) ->
  questions (state w) !! 1 = Some qn ->
  let w' := run w [QuitClicked true; TimeoutFired h] in
  screen (document w') = StartScreen
  /\ isQuizActive (state w') = false
  /\ currentQuestionIndex (state w') = 1
  /\ userAnswers (state w') = []
  /\ timer (state w') = Some (nextHandle (env w))
  /\ nextHandle (env w) ∈ intervals (env w')
  /\ h ∉ timeouts (env w').
Proof.
  intros Hh Hq.
  pose proof (lookup_lt_Some _ _ _ Hq) as Hlen.
  destruct w as [[qs0 idx sc st bs tl tm stt qst qts uas stg ans act] d e].
  destruct e as [ivs tos nh fs ls sth nw rnd rc].
  fields. cbn zeta. unfold run. cbn [foldl]. unfold step. cbn [dispatch].
  unfold handleQuitQuiz, quitQuiz, reset, clearTimer, clearInterval,
    switchScreen, timeout_callback, nextQuestion, showQuestion,
    generateAnswers, updateButtonStates, startTimer, setInterval, Date_now,
    window_onerror, showError.
  assert ((Z.of_nat 0 <? Z.of_nat (length qs0) - 1)%Z = true) as Hz
    by (apply Z.ltb_lt; lia).
  assert ((1 <? length qs0)%nat = true) as Hn1 by (apply Nat.ltb_lt; lia).
  assert ((length qs0 <=? 1)%nat = false) as Hn2 by (apply Nat.leb_gt; lia).
  destruct tm;
    repeat progress (run_M;
                     change (0 + 1) with 1;
                     rewrite ?(bool_decide_true _ Hh), ?Hz, ?Hn1, ?Hn2, ?Hq);
    destruct (shuffle_new _ _ _) as [l c];
    repeat progress run_M;
    split_and!; try done; set_solver.
Qed.

Lemma delayed_advance_survives_quit_witness :
  let w' := run Sample.timed_out [QuitClicked true; TimeoutFired 2%positive] in
  2%positive ∈ timeouts (env Sample.timed_out)
  /\ screen (document w') = StartScreen
  /\ timer (state w') = Some 3%positive.
Proof.
  cbn zeta.
  assert (2%positive ∈ timeouts (env Sample.timed_out)) as H
    by (vm_compute; set_solver).
  split; [exact H|].
  destruct (delayed_advance_survives_quit Sample.timed_out 2%positive
              Sample.four H eq_refl) as (Hs & _ & _ & _ & Ht & _).
  split; [exact Hs|exact Ht].
Defined.

(** ** The timer handle *)

Lemma step_timer_consistent (w : App) (ev : Event) :
  timer_consistent w -> timer_consistent (step w ev).
Proof.
  unfold timer_consistent. intros [H1 H2].
  destruct w as [[qs0 idx sc st bs tl tm stt qst qts uas stg ans act] d e].
  destruct e as [ivs tos nh fs ls sth nw rnd rc]. fields.
  assert (ans = true -> tm = None) as H1' by exact H1.
  assert (forall h, tm = Some h -> h ∈ ivs) as H2' by exact H2.
  clear H1 H2.
  destruct ev as [ | [[|qn qs]|err] | | | | | [|] | | | | | ctrl key | h | h | t ].
  all: try (destruct key; destruct ctrl).
  all: destruct ans, tm as [h0|];
    try (specialize (H1' eq_refl); discriminate H1');
    try (pose proof (H2' _ eq_refl) as Hin); clear H1' H2'.
  all: crush; split; intros; simplify_eq; try done; set_solver.
Qed.

(** X11. In every world the page can reach, a question that is resolved
    has no countdown of its own ([timer] is [null]), and a handle kept in
    [timer] is always a live interval: [clearTimer] is the only code that
    clears an interval and it forgets the handle at once. *)
Theorem timer_stays_consistent (w : App) : reachable w -> timer_consistent w.
Proof.
  induction 1 as [d e|w ev _ IH].
  - unfold QuizApp_new, timer_consistent. by destruct (localStorage e).
  - by apply step_timer_consistent.
Qed.

Lemma timer_stays_consistent_witness :
  reachable Sample.advanced_twice /\ timer_consistent Sample.advanced_twice.
Proof.
  assert (reachable Sample.advanced_twice) as H.
  { unfold Sample.advanced_twice, Sample.timed_out, Sample.started, run.
    cbn [foldl replicate]. repeat apply reachable_step. apply reachable_new. }
  split; [exact H|exact (timer_stays_consistent _ H)].
Defined.

(** ** Fetching the questions *)

Section fetch_facts.

Variable decodeHtml : string -> string.

Lemma decode_all_length (l : list RawQuestion) (qs : list Question) :
  decode_all decodeHtml l = inr qs -> length qs = length l.
Proof.
  revert qs. induction l as [|raw l IH]; intros qs; cbn [decode_all].
  - by intros [= <-].
  - destruct (decode_question decodeHtml raw) as [error|qn]; [done|].
    destruct (decode_all decodeHtml l) as [error|qs']; [done|].
    intros [= <-]. cbn. by rewrite (IH qs').
Qed.

Lemma decode_all_inr (l : list RawQuestion) :
  (exists qs, decode_all decodeHtml l = inr qs)
  <-> Forall (fun raw => is_Some (raw_incorrect_answers raw)) l.
Proof.
  induction l as [|raw l IH]; cbn [decode_all].
  - split; [constructor|by exists []].
  - unfold decode_question.
    destruct (raw_incorrect_answers raw) as [answers|] eqn:Ha.
    + destruct (decode_all decodeHtml l) as [error|qs'].
      * split; [by intros [qs [=]]|].
        intros [_ Hl]%Forall_cons. by destruct (proj2 IH Hl).
      * split; [|by eauto]. intros _. constructor; [by rewrite Ha|].
        apply IH. by eauto.
    + split; [by intros [qs [=]]|].
      intros [[x Hx] _]%Forall_cons. by rewrite Ha in Hx.
Qed.

Lemma fetchQuestions_Resolved (r : Fetched) (qs : list Question) :
  fetchQuestions decodeHtml r = Resolved qs
  <-> exists status data results,
        r = Response true status (inr data)
        /\ response_code data = Some 0%Z
        /\ api_results data = Some results
        /\ decode_all decodeHtml results = inr qs.
Proof.
  unfold fetchQuestions, fetchQuestions_try. split.
  - destruct r as [error|[|] status [error|data]]; cbn [negb];
      try (destruct (String.eqb _ _); discriminate).
    destruct (decide (response_code data = Some 0%Z)) as [Hc|Hc].
    + rewrite (bool_decide_true _ Hc). cbn [negb].
      destruct (api_results data) as [results|] eqn:Hr;
        [|destruct (String.eqb _ _); discriminate].
      destruct (decode_all decodeHtml results) as [error|qs'] eqn:Hd;
        [destruct (String.eqb _ _); discriminate|].
      intros [= <-]. by exists status, data, results.
    + rewrite (bool_decide_false _ Hc). cbn [negb].
      destruct (String.eqb _ _); discriminate.
  - intros (status & data & results & -> & Hc & Hr & Hd). cbn [negb].
    by rewrite (bool_decide_true _ Hc), Hr, Hd.
Qed.

Lemma failed_settle_inactive (w : App) (o : FetchOutcome) :
  o = Resolved [] \/ (exists err, o = Rejected err) ->
  isQuizActive (state (exec (startQuiz_settle o) w)) = isQuizActive (state w)
  /\ exists msg,
       errorModal (document (exec (startQuiz_settle o) w))
       = Some ("Failed to Start Quiz", msg).
Proof.
  intros Ho. destruct (startQuiz_settle_failed w o Ho) as [msg ->].
  split; [|by exists msg]. by destruct Ho as [->|[err ->]].
Qed.

(** X13. Whether a quiz starts.  From a page with no quiz active, a call
    of [startQuiz] leaves a quiz active exactly when [validateSettings]
    lets the form through and the request brings questions.  The first
    means: each of the two numeric fields holds a number of its range (1 to
    50 questions, 5 to 300 seconds) or holds no digits at all ([NaN], which
    the comparisons do not refuse).  The second means: the response is
    [ok], its body parses, [response_code] is 0, [results] is an array
    with at least one question, and every question has its array of
    incorrect answers.  In every other case the quiz stays inactive and
    the error modal is shown. *)
Theorem quiz_starts_iff (w : App) (r : Fetched) :
  isQuizActive (state w) = false ->
  let w' := exec (startQuiz (fetchQuestions decodeHtml r)) w in
  (isQuizActive (state w') = true
   <-> ((within 1 50 (numQuestions (form (document w)))
         \/ numQuestions (form (document w)) = NaN)
        /\ (within 5 300 (timePerQuestion (form (document w)))
            \/ timePerQuestion (form (document w)) = NaN))
       /\ exists status data results,
            r = Response true status (inr data)
            /\ response_code data = Some 0%Z
            /\ api_results data = Some results
            /\ results <> []
            /\ Forall (fun raw => is_Some (raw_incorrect_answers raw)) results)
  /\ (isQuizActive (state w') = false ->
      exists title msg, errorModal (document w') = Some (title, msg)).
Proof.
  intros Hin. cbn zeta. rewrite startQuiz_as_events.
  rewrite <- !not_outside_within.
  assert (isQuizActive (state (collected w)) = false) as Hc.
  { destruct (collected_spec w) as (_ & Hs & _).
    unfold session_fields in Hs. congruence. }
  destruct (decide (out_of_range _)) as [Ho|Ho].
  { rewrite step_StartClicked.
    destruct (startQuiz_request_spec w) as [(msg & Heq & _)|[_ Hno]]; [|done].
    unfold exec. rewrite Heq. cbn [snd on_document state document].
    split; [|by eauto]. rewrite Hc. split; [done|].
    intros [[Hn Ht] _]. destruct Ho; tauto. }
  assert (~ outside 1 50 (numQuestions (form (document w)))
          /\ ~ outside 5 300 (timePerQuestion (form (document w)))) as Hok
    by (unfold out_of_range in Ho; tauto).
  change (run w [StartClicked; FetchSettled (fetchQuestions decodeHtml r)])
    with (step (step w StartClicked) (FetchSettled (fetchQuestions decodeHtml r))).
  rewrite step_StartClicked.
  destruct (startQuiz_request_spec w) as [(msg & _ & Ho')|[Heq _]]; [done|].
  set (w0 := on_env _ _) in Heq.
  replace (exec startQuiz_request w) with w0 by (unfold exec; by rewrite Heq).
  assert (fetches (env w0) = S (fetches (env (collected w)))) as Hf by done.
  set (w1 := on_env (set_fetches (fetches (env (collected w)))) w0).
  assert (isQuizActive (state w1) = false) as Hc1 by exact Hc.
  destruct (fetchQuestions decodeHtml r) as [[|qn qs]|err] eqn:Hr.
  - rewrite (step_FetchSettled _ _ _ Hf). fold w1.
    destruct (failed_settle_inactive w1 (Resolved [])) as [-> [msg Hm]];
      [by left|].
    split; [|by eauto]. split; [by rewrite Hc1|].
    intros (_ & status & data & results & -> & Hcode & Hres & Hne & Hwf).
    apply decode_all_inr in Hwf as [qs Hqs].
    rewrite (proj2 (fetchQuestions_Resolved
                      (Response true status (inr data)) qs)) in Hr
      by (by exists status, data, results).
    injection Hr as ->. apply decode_all_length in Hqs.
    by destruct results.
  - destruct (startQuiz_settle_started w0 qn qs)
      as (_ & _ & _ & _ & _ & _ & Hact & _); [by rewrite Hf|].
    rewrite Hact. split; [|done]. split; [|done]. intros _. split; [done|].
    apply fetchQuestions_Resolved in Hr
      as (status & data & results & -> & Hcode & Hres & Hqs).
    exists status, data, results. split_and!; try done.
    + intros ->. by apply decode_all_length in Hqs.
    + apply decode_all_inr. by eauto.
  - rewrite (step_FetchSettled _ _ _ Hf). fold w1.
    destruct (failed_settle_inactive w1 (Rejected err)) as [-> [msg Hm]];
      [by right; eauto|].
    split; [|by eauto]. split; [by rewrite Hc1|].
    intros (_ & status & data & results & -> & Hcode & Hres & Hne & Hwf).
    apply decode_all_inr in Hwf as [qs Hqs].
    rewrite (proj2 (fetchQuestions_Resolved
                      (Response true status (inr data)) qs)) in Hr
      by (by exists status, data, results).
    done.
Qed.

End fetch_facts.

Lemma quiz_starts_iff_witness :
  let raw := {| raw_question := "What is the capital of France?";
                raw_category := "Geography";
                raw_correct_answer := "Paris";
                raw_incorrect_answers := Some ["Rome"; "Oslo"; "Bern"] |} in
  let r := Response true 200
             (inr {| response_code := Some 0%Z; api_results := Some [raw] |}) in
  isQuizActive (state blank_time) = false
  /\ isQuizActive
       (state (exec (startQuiz (fetchQuestions id r)) blank_time))
     = true.
Proof.
  cbn zeta. split; [reflexivity|].
  destruct (quiz_starts_iff id blank_time
              (Response true 200
                 (inr {| response_code := Some 0%Z;
                         api_results :=
                           Some [ {| raw_question := "What is the capital of France?";
                                     raw_category := "Geography";
                                     raw_correct_answer := "Paris";
                                     raw_incorrect_answers :=
                                       Some ["Rome"; "Oslo"; "Bern"] |} ] |}))
              eq_refl) as [[_ H] _].
  apply H. split.
  - split; [left; cbn; lia|by right].
  - eexists _, _, _. split; [reflexivity|]. split; [reflexivity|].
    split; [reflexivity|]. split; [discriminate|].
    constructor; [by eexists|constructor].
Defined.

(** ** Random numbers drawn by the shuffle *)

Section shuffle_draws.

Context {A : Type}.

Lemma shuffle_loop_calls (rnd : nat -> Q) (s i c : nat) (h : gmap nat (list A)) :
  (shuffle_loop rnd s i c h).2 = c + i.
Proof.
  revert c h. induction i as [|i IH]; intros c h; cbn [shuffle_loop].
  - cbn. lia.
  - rewrite IH. lia.
Qed.

Lemma shuffle_new_calls (rnd : nat -> Q) (c : nat) (l : list A) :
  (shuffle_new rnd c l).2 = c + (length l - 1).
Proof.
  unfold shuffle_new, shuffleArray, alloc.
  rewrite lookup_insert_eq. change (default [] (Some l)) with l.
  set (s := fresh (dom (<[_ := l]> ∅))).
  rewrite lookup_insert_eq. change (default [] (Some l)) with l.
  pose proof (shuffle_loop_calls rnd s (length l - 1) c
                (<[s := l]> (<[fresh (dom (∅ : gmap nat (list A))) := l]> ∅))) as H.
  destruct (shuffle_loop _ _ _ _ _) as [h2 c']. exact H.
Qed.

End shuffle_draws.

(** X14. Displaying the answers of a question draws one random number for
    each incorrect answer, no more and no fewer: the loop of
    [shuffleArray] runs from the last position down to position 1, and the
    array holds the incorrect answers and the correct one. *)
Theorem generateAnswers_draws (w : App) (qn : Question) :
  randomCalls (env (exec (generateAnswers qn) w))
  = randomCalls (env w) + length (incorrect_answers qn).
Proof.
  pose proof (shuffle_new_calls (random (env w)) (randomCalls (env w))
                (incorrect_answers qn ++ [correct_answer qn])) as H.
  rewrite length_app in H. cbn [length] in H.
  destruct w as [q d e]. unfold generateAnswers. run_M.
  destruct (shuffle_new _ _ _) as [l c]. run_M. cbn [snd] in H. lia.
Qed.

(** ** Settings across a reload *)

(** X15. What was entered is what the next visit shows.  After a click on
    Start with whole numbers in the two numeric fields and a store that
    accepts the write, a page loaded later on the same browser starts with
    the entered settings, in the state and in the form, whether or not the
    settings passed validation.  (A whole number is what the stored JSON
    text gives back unchanged.) *)
Theorem settings_survive_reload (w : App) (d : Dom) (n t : Z) :
  storageThrows (env w) = false ->
  numQuestions (form (document w)) = Int n ->
  timePerQuestion (form (document w)) = Int t ->
  let w' := QuizApp_new d (env (step w StartClicked)) in
  settings (state w') = form (document w)
  /\ form (document w') = form (document w).
Proof.
  intros Hs _ _. cbn zeta. rewrite step_StartClicked.
  destruct (collected_spec w) as (_ & _ & _ & _ & _ & _ & Hl).
  rewrite Hs in Hl.
  assert (localStorage (env (exec startQuiz_request w))
          = Some {| saved_settings := form (document w);
                    timestamp := now (env w) |}) as Hsaved.
  { unfold exec.
    by destruct (startQuiz_request_spec w) as [(msg & -> & _)|[-> _]]. }
  unfold QuizApp_new. by rewrite Hsaved.
Qed.

Lemma settings_survive_reload_witness :
  let w := Sample.opened 0 20 in
  let w' := QuizApp_new (Sample.page 10 20) (env (step w StartClicked)) in
  is_Some (errorModal (document (step w StartClicked)))
  /\ numQuestions (settings (state w')) = Int 0.
Proof.
  cbn zeta. split; [eexists; vm_compute; reflexivity|].
  destruct (settings_survive_reload (Sample.opened 0 20) (Sample.page 10 20)
              0 20 eq_refl eq_refl eq_refl) as [H _].
  by rewrite H.
Defined.

(** ** The performance tier *)

Lemma tier_exact_cases (score total : Z) (c : CONFIG.PerfConfig) :
  tier_exact score total = Some c ->
  (c = CONFIG.EXCELLENT /\ 90 * total <= 100 * score
   \/ c = CONFIG.VERY_GOOD /\ 80 * total <= 100 * score < 90 * total
   \/ c = CONFIG.GOOD /\ 70 * total <= 100 * score < 80 * total
   \/ c = CONFIG.FAIR /\ 60 * total <= 100 * score < 70 * total
   \/ c = CONFIG.POOR /\ 100 * score < 60 * total)%Z.
Proof.
  unfold tier_exact, CONFIG.PERFORMANCE_MESSAGES.
  cbn [find snd CONFIG.min CONFIG.EXCELLENT CONFIG.VERY_GOOD CONFIG.GOOD
       CONFIG.FAIR CONFIG.POOR].
  destruct (Z.leb_spec (90 * total) (100 * score));
    [cbn; intros [= <-]; tauto|].
  destruct (Z.leb_spec (80 * total) (100 * score));
    [cbn; intros [= <-]; tauto|].
  destruct (Z.leb_spec (70 * total) (100 * score));
    [cbn; intros [= <-]; tauto|].
  destruct (Z.leb_spec (60 * total) (100 * score));
    [cbn; intros [= <-]; tauto|].
  destruct (Z.leb_spec (0 * total) (100 * score)); cbn; [|done].
  intros [= <-]. tauto.
Qed.

(** X16. In a quiz of 1 to 50 questions the tier never drops when the
    score rises: of two sessions of the same length, the one with the
    higher score gets an entry of the table with at least the same
    minimum.  (The comparison is made on doubles; it is checked against
    the exact quotient for every score of every such quiz.) *)
Theorem tier_monotone (q q' : QuizState) :
  length (questions q') = length (questions q) ->
  1 <= length (questions q) <= 50 ->
  score q <= score q' ->
  score q' <= length (questions q) ->
  (CONFIG.min (getPerformanceMessage q)
   <= CONFIG.min (getPerformanceMessage q'))%Z.
Proof.
  intros Hlen Hn Hs Hs'.
  rewrite !getPerformanceMessage_shown, Hlen.
  destruct (results_in_range (score q) (length (questions q)) Hn ltac:(lia))
    as (_ & H1 & _).
  destruct (results_in_range (score q') (length (questions q)) Hn Hs')
    as (_ & H2 & _).
  apply tier_exact_cases in H1, H2.
  destruct H1 as [[E1 ?]|[[E1 ?]|[[E1 ?]|[[E1 ?]|[E1 ?]]]]];
    destruct H2 as [[E2 ?]|[[E2 ?]|[[E2 ?]|[[E2 ?]|[E2 ?]]]]];
    rewrite E1, E2;
    cbn [CONFIG.min CONFIG.EXCELLENT CONFIG.VERY_GOOD CONFIG.GOOD
         CONFIG.FAIR CONFIG.POOR]; lia.
Qed.

Lemma tier_monotone_witness :
  (CONFIG.min (getPerformanceMessage (state Sample.scored_26_of_29))
   <= CONFIG.min (getPerformanceMessage
                    (set_score 27 (state Sample.scored_26_of_29))))%Z.
Proof.
  apply (tier_monotone (state Sample.scored_26_of_29)
           (set_score 27 (state Sample.scored_26_of_29))).
  - reflexivity.
  - vm_compute. split; lia.
  - vm_compute. lia.
  - vm_compute. lia.
Defined.

(** ** A quiz left alone *)

Lemma idle_round_spec (w : App) (qn : Question) (t T : Z) :
  isAnswered (state w) = false ->
  one_countdown w ->
  selected (document w) = None ->
  currentQuestion (state w) = Some qn ->
  timeLeft (state w) = Int t -> (0 < t)%Z ->
  timePerQuestion (settings (state w)) = Int T ->
  let w' := idle_round w in
  questions (state w') = questions (state w)
  /\ settings (state w') = settings (state w)
  /\ score (state w') = score (state w)
  /\ userAnswers (state w')
     = userAnswers (state w) ++ [unanswered_record (Int T) qn]
  /\ if (currentQuestionIndex (state w) + 1 <? length (questions (state w)))%nat
     then currentQuestionIndex (state w') = currentQuestionIndex (state w) + 1
          /\ isAnswered (state w') = false
          /\ one_countdown w'
          /\ selected (document w') = None
          /\ timeLeft (state w') = Int T
     else screen (document w') = EndScreen
          /\ isQuizActive (state w') = false
          /\ no_countdown w'.
Proof.
  unfold currentQuestion, one_countdown, no_countdown.
  intros Hun (h & Htm & Hiv) Hsel Hq Ht Hpos HT.
  unfold idle_round. rewrite Htm, Ht.
  replace (Z.to_nat t) with (S (Z.to_nat (t - 1))) by lia.
  rewrite replicate_S_end. unfold run. rewrite foldl_snoc.
  fold (run w (replicate (Z.to_nat (t - 1)) (IntervalFired h))).
  rewrite (ticks_count_down _ w h t) by (rewrite ?Hiv; done || set_solver || lia).
  replace (t - Z.of_nat (Z.to_nat (t - 1)))%Z with 1%Z by lia.
  destruct w as [[qs0 idx sc st bs tl tm stt qst qts uas stg ans act] d e].
  destruct e as [ivs tos nh fs ls sth nw rnd rc].
  destruct d as [scr answ sel em lo fm bt rs rv].
  destruct stg as [nq cat dif tpq].
  cbn in Hun, Htm, Hiv, Hsel, Hq, Ht, HT. subst. cbn zeta. fields.
  assert (h ∈ ({[h]} : gset handle)) as Hh by set_solver.
  assert (nh ∈ ({[nh]} ∪ tos : gset handle)) as Hnh by set_solver.
  unfold step. cbn [dispatch].
  unfold interval_callback, handleTimeUp, submitAnswer, clearTimer,
    clearInterval, recordQuestionTime, push_userAnswer, resetStreak,
    updateButtonStates, setTimeout, selectedAnswer, timeout_callback,
    nextQuestion, showQuestion, endQuiz, showResults, switchScreen,
    generateAnswers, startTimer, setInterval, Date_now, window_onerror,
    showError, unanswered_record.
  destruct (idx + 1 <? length qs0)%nat eqn:Hlt.
  - pose proof (proj1 (Nat.ltb_lt _ _) Hlt) as Hlt'.
    destruct (lookup_lt_is_Some_2 _ _ Hlt') as [qn' Hqn'].
    assert ((Z.of_nat idx <? Z.of_nat (length qs0) - 1)%Z = true) as Hz
      by (apply Z.ltb_lt; lia).
    assert ((length qs0 <=? idx + 1)%nat = false) as Hle
      by (apply Nat.leb_gt; lia).
    destruct (truthy qst) eqn:Htr;
      repeat progress
        (run_M; change (js_le (js_sub (Int 1) (Int 1)) (Int 0)) with true;
         rewrite ?(bool_decide_true _ Hh), ?(bool_decide_true _ Hnh),
                  ?Htr, ?Hq, ?Hz, ?Hlt, ?Hle, ?Hqn');
      destruct (shuffle_new _ _ _) as [l c];
      repeat progress run_M;
      (split_and!; try done; eexists; split; [done|]; fields; set_solver).
  - pose proof (proj1 (Nat.ltb_ge _ _) Hlt) as Hlt'.
    assert ((Z.of_nat idx <? Z.of_nat (length qs0) - 1)%Z = false) as Hz
      by (apply Z.ltb_ge; lia).
    destruct (truthy qst) eqn:Htr;
      repeat progress
        (run_M; change (js_le (js_sub (Int 1) (Int 1)) (Int 0)) with true;
         rewrite ?(bool_decide_true _ Hh), ?(bool_decide_true _ Hnh),
                  ?Htr, ?Hq, ?Hz, ?Hlt);
      (split_and!; try done; set_solver).
Qed.

(** X17. A quiz left alone ends by itself.  From an unanswered question
    with nothing selected and its countdown running, if the user does
    nothing, each remaining question times out and the delayed callback
    moves on: after as many rounds as there are questions left the results
    screen is shown, the quiz is inactive, no countdown is left, the score
    is what it was, and every question from the current one on has got one
    record, in order, without an answer, incorrect, with the full
    [timePerQuestion] as time spent. *)
Theorem unattended_quiz_ends (k : nat) (w : App) (t T : Z) :
  isAnswered (state w) = false ->
  one_countdown w ->
  selected (document w) = None ->
  timeLeft (state w) = Int t -> (0 < t)%Z ->
  timePerQuestion (settings (state w)) = Int T -> (0 < T)%Z ->
  k <> 0 ->
  currentQuestionIndex (state w) + k = length (questions (state w)) ->
  let w' := idle k w in
  screen (document w') = EndScreen
  /\ isQuizActive (state w') = false
  /\ no_countdown w'
  /\ score (state w') = score (state w)
  /\ userAnswers (state w')
     = userAnswers (state w)
       ++ (unanswered_record (Int T)
             <$> drop (currentQuestionIndex (state w)) (questions (state w))).
Proof.
  cbn zeta. revert w t.
  induction k as [|k IH]; intros w t Hun Hone Hsel Ht Hpos HT HTpos Hk Hlen;
    [done|].
  destruct (lookup_lt_is_Some_2 (questions (state w))
              (currentQuestionIndex (state w))) as [qn Hq]; [lia|].
  pose proof (idle_round_spec w qn t T Hun Hone Hsel Hq Ht Hpos HT) as Hround.
  cbn zeta in Hround. destruct Hround as (Hqs & Hst & Hsc & Hua & Hrest).
  rewrite (drop_S _ _ _ Hq). cbn [idle fmap list_fmap].
  destruct k as [|k].
  - rewrite (proj2 (Nat.ltb_ge _ _)) in Hrest by lia.
    destruct Hrest as (? & ? & ?). cbn [idle].
    rewrite drop_ge by lia. by split_and!.
  - rewrite (proj2 (Nat.ltb_lt _ _)) in Hrest by lia.
    destruct Hrest as (Hi & Hun' & Hone' & Hsel' & Ht').
    destruct (IH (idle_round w) T Hun' Hone' Hsel' Ht' HTpos) as
      (? & ? & ? & Hsc' & Hua'); [by rewrite Hst|done|done|rewrite Hi, Hqs; lia|].
    split_and!; try done; [congruence|].
    rewrite Hua', Hua, Hi, Hqs, <- app_assoc.
    by replace (currentQuestionIndex (state w) + 1)
      with (S (currentQuestionIndex (state w))) by lia.
Qed.

Lemma unattended_quiz_ends_witness :
  let w := Sample.started 2 5 [Sample.paris; Sample.four] in
  one_countdown w
  /\ screen (document (idle 2 w)) = EndScreen
  /\ length (userAnswers (state (idle 2 w))) = 2.
Proof.
  cbn zeta.
  assert (one_countdown (Sample.started 2 5 [Sample.paris; Sample.four])) as H.
  { exists 1%positive. by vm_compute. }
  split; [exact H|].
  destruct (unattended_quiz_ends 2
              (Sample.started 2 5 [Sample.paris; Sample.four]) 5 5
              eq_refl H eq_refl eq_refl eq_refl eq_refl eq_refl
              ltac:(discriminate) eq_refl)
    as (Hs & _ & _ & _ & Hu).
  split; [exact Hs|]. by rewrite Hu.
Defined.
